(** * The terminal widget of spyder-terminal: a shallow embedding

    This development models [spyder_terminal/widgets/terminalgui.py]:
    the [ChannelHandler], [TerminalWidget] and [TermView] classes.  Python
    methods become functions in a small state-and-exception monad [Py]
    over a record [State] that holds the attributes of the widget and the
    observable traces of the Qt collaborators (the scripts handed to the
    web document, the signals emitted, the pending single-shot timers, the
    page actions triggered, the text printed). *)

From stdpp Require Import gmap strings list pretty.

Local Open Scope string_scope.
Local Open Scope Z_scope.

(** ** Python values *)

(** The values that reach this module from the configuration store and from
    the web document: [None], booleans, integers and strings. *)
Inductive PyVal : Type :=
  | PyNone
  | PyBool (b : bool)
  | PyInt (z : Z)
  | PyStr (s : string).

#[global] Instance PyVal_eq_dec : EqDecision PyVal.
Proof. solve_decision. Defined.

(** Truth value testing, as done by [if v] and [not v]. *)
Definition py_truthy (v : PyVal) : bool :=
  match v with
  | PyNone => false
  | PyBool b => b
  | PyInt z => negb (z =? 0)
  | PyStr s => negb (String.eqb s "")
  end.

(** What ["{}".format(v)] produces. *)
Definition py_str (v : PyVal) : string :=
  match v with
  | PyNone => "None"
  | PyBool true => "True"
  | PyBool false => "False"
  | PyInt z => pretty z
  | PyStr s => s
  end.

(** Equality of dictionary keys: [bool] is a subclass of [int], so [True]
    and [1] (and [False] and [0]) are the same key. *)
Definition py_key_eqb (a b : PyVal) : bool :=
  match a, b with
  | PyNone, PyNone => true
  | PyStr s, PyStr t => String.eqb s t
  | PyInt x, PyInt y => x =? y
  | PyBool x, PyBool y => Bool.eqb x y
  | PyBool x, PyInt y | PyInt y, PyBool x => (if x then 1 else 0) =? y
  | _, _ => false
  end.

(** A dictionary literal with arbitrary keys, in source order. *)
Fixpoint literal_lookup {A : Type} (d : list (PyVal * A)) (k : PyVal) : option A :=
  match d with
  | [] => None
  | (k', v) :: d' => if py_key_eqb k' k then Some v else literal_lookup d' k
  end.

Inductive PyExn : Type :=
  | KeyError (key : PyVal).

(** The double quote character, as a one-character string. *)
Definition dquote : string := String (Ascii.ascii_of_nat 34) EmptyString.

(** ** Qt collaborators *)

(** Host-visible signals of [TerminalWidget]. *)
Inductive Signal : Type := terminal_closed | terminal_ready.

(** The slots connected to the two signals of [ChannelHandler]. *)
Inductive Slot : Type :=
  | emit_terminal_ready    (* lambda: self.terminal_ready.emit() *)
  | emit_terminal_closed   (* lambda: self.terminal_closed.emit() *)
  | slot_setup_term.       (* self.setup_term *)

(** Callables handed to [QTimer.singleShot]. *)
Inductive TimerCallback : Type := alive_loopback_cb.

#[global] Instance TimerCallback_eq_dec : EqDecision TimerCallback.
Proof. solve_decision. Defined.

(** Completion callbacks handed to [runJavaScript]. *)
Inductive JsCallback : Type := return_js_value_cb.

(** The two ways a script reaches the document. *)
Inductive DocCall : Type :=
  | evaluateJavaScript (script : string)
  | runJavaScript (script : string) (callback : JsCallback).

Definition script_of (c : DocCall) : string :=
  match c with
  | evaluateJavaScript s => s
  | runJavaScript s _ => s
  end.

Inductive WebAction : Type := Copy | Paste.

Inductive QEventType : Type := ShortcutOverride | OtherEventType.

Record QEvent : Type := mkQEvent {
  ev_type : QEventType;
  ev_key : Z;
  ev_modifiers : Z;
  ev_accepted : bool
}.

Record QWheelEvent : Type := mkQWheelEvent {
  angleDelta : Z * Z
}.

(** [Qt.KeyboardModifier] and [Qt.Modifier] flag values. *)
Module Qt.
Definition ShiftModifier : Z := 0x02000000.
Definition ControlModifier : Z := 0x04000000.
Definition AltModifier : Z := 0x08000000.
Definition MetaModifier : Z := 0x10000000.
Definition SHIFT : Z := 0x02000000.
Definition CTRL : Z := 0x04000000.
Definition ALT : Z := 0x08000000.
Definition META : Z := 0x10000000.
End Qt.

(** ** State *)

Record State : Type := mkState {
  (* attributes of the TerminalWidget instance *)
  font : PyVal;
  initial_path : string;
  (* connections of handler.sig_ready and handler.sig_closed, in the order
     they were made *)
  sig_ready : list Slot;
  sig_closed : list Slot;
  (* objects registered on the web channel *)
  registered : list string;
  (* URLs loaded into the view *)
  loaded : list string;
  (* scripts handed to the document, oldest first *)
  doc_calls : list DocCall;
  (* text written by print *)
  stdout : list string;
  (* signals of the widget emitted so far, oldest first *)
  emitted : list Signal;
  (* event-loop time in milliseconds and pending single-shot timers with
     the time at which each is due *)
  clock : Z;
  timers : list (Z * TimerCallback);
  (* page actions triggered on the view *)
  page_actions : list WebAction
}.

Definition with_font (v : PyVal) (s : State) : State :=
  mkState v (initial_path s) (sig_ready s) (sig_closed s) (registered s)
    (loaded s) (doc_calls s) (stdout s) (emitted s) (clock s) (timers s)
    (page_actions s).

Definition with_initial_path (p : string) (s : State) : State :=
  mkState (font s) p (sig_ready s) (sig_closed s) (registered s)
    (loaded s) (doc_calls s) (stdout s) (emitted s) (clock s) (timers s)
    (page_actions s).

Definition with_sig_ready (l : list Slot) (s : State) : State :=
  mkState (font s) (initial_path s) l (sig_closed s) (registered s)
    (loaded s) (doc_calls s) (stdout s) (emitted s) (clock s) (timers s)
    (page_actions s).

Definition with_sig_closed (l : list Slot) (s : State) : State :=
  mkState (font s) (initial_path s) (sig_ready s) l (registered s)
    (loaded s) (doc_calls s) (stdout s) (emitted s) (clock s) (timers s)
    (page_actions s).

Definition with_registered (l : list string) (s : State) : State :=
  mkState (font s) (initial_path s) (sig_ready s) (sig_closed s) l
    (loaded s) (doc_calls s) (stdout s) (emitted s) (clock s) (timers s)
    (page_actions s).

Definition with_loaded (l : list string) (s : State) : State :=
  mkState (font s) (initial_path s) (sig_ready s) (sig_closed s) (registered s)
    l (doc_calls s) (stdout s) (emitted s) (clock s) (timers s)
    (page_actions s).

Definition with_doc_calls (l : list DocCall) (s : State) : State :=
  mkState (font s) (initial_path s) (sig_ready s) (sig_closed s) (registered s)
    (loaded s) l (stdout s) (emitted s) (clock s) (timers s)
    (page_actions s).

Definition with_stdout (l : list string) (s : State) : State :=
  mkState (font s) (initial_path s) (sig_ready s) (sig_closed s) (registered s)
    (loaded s) (doc_calls s) l (emitted s) (clock s) (timers s)
    (page_actions s).

Definition with_emitted (l : list Signal) (s : State) : State :=
  mkState (font s) (initial_path s) (sig_ready s) (sig_closed s) (registered s)
    (loaded s) (doc_calls s) (stdout s) l (clock s) (timers s)
    (page_actions s).

Definition with_clock (t : Z) (s : State) : State :=
  mkState (font s) (initial_path s) (sig_ready s) (sig_closed s) (registered s)
    (loaded s) (doc_calls s) (stdout s) (emitted s) t (timers s)
    (page_actions s).

Definition with_timers (l : list (Z * TimerCallback)) (s : State) : State :=
  mkState (font s) (initial_path s) (sig_ready s) (sig_closed s) (registered s)
    (loaded s) (doc_calls s) (stdout s) (emitted s) (clock s) l
    (page_actions s).

Definition with_page_actions (l : list WebAction) (s : State) : State :=
  mkState (font s) (initial_path s) (sig_ready s) (sig_closed s) (registered s)
    (loaded s) (doc_calls s) (stdout s) (emitted s) (clock s) (timers s)
    l.

(** ** The monad of Python methods *)

Inductive Outcome (A : Type) : Type :=
  | Returns (a : A)
  | Raises (e : PyExn).
Arguments Returns {A} a.
Arguments Raises {A} e.

Definition Py (A : Type) : Type := State -> Outcome A * State.

Definition py_ret {A : Type} (a : A) : Py A := fun s => (Returns a, s).

Definition py_bind {A B : Type} (m : Py A) (k : A -> Py B) : Py B :=
  fun s =>
    match m s with
    | (Returns a, s') => k a s'
    | (Raises e, s') => (Raises e, s')
    end.

Definition raise {A : Type} (e : PyExn) : Py A := fun s => (Raises e, s).

Definition get_state : Py State := fun s => (Returns s, s).

Definition modify (f : State -> State) : Py unit := fun s => (Returns tt, f s).

Declare Scope py_scope.
Delimit Scope py_scope with py.
Notation "x <- m ;; k" := (py_bind m (fun x => k))
  (at level 100, m at next level, right associativity) : py_scope.
Notation "m ;;; k" := (py_bind m (fun _ => k))
  (at level 100, right associativity) : py_scope.
Local Open Scope py_scope.

(** State reached and outcome produced by running a method. *)
Definition outcome_of {A : Type} (m : Py A) (s : State) : Outcome A := fst (m s).
Definition state_after {A : Type} (m : Py A) (s : State) : State := snd (m s).

(** ** Primitive effects *)

Definition print (text : string) : Py unit :=
  modify (fun s => with_stdout (stdout s ++ [text]) s).

Definition emit (sig : Signal) : Py unit :=
  modify (fun s => with_emitted (emitted s ++ [sig]) s).

(** [QTimer.singleShot(msec, callback)] *)
Definition QTimer_singleShot (msec : Z) (cb : TimerCallback) : Py unit :=
  modify (fun s => with_timers (timers s ++ [(clock s + msec, cb)]) s).

Definition triggerPageAction (a : WebAction) : Py unit :=
  modify (fun s => with_page_actions (page_actions s ++ [a]) s).

(** ** Dictionaries with string keys *)

(** [key in d] *)
Definition dict_contains (key : string) (d : gmap string PyVal) : bool :=
  bool_decide (is_Some (d !! key)).

(** [d[key]] *)
Definition dict_getitem (d : gmap string PyVal) (key : string) : Py PyVal :=
  match d !! key with
  | Some v => py_ret v
  | None => raise (KeyError (PyStr key))
  end.

Definition PREFIX : string := "spyder_terminal.default.".

(** The document call that carries a script on each backend. *)
Definition issued (webengine : bool) (script : string) : DocCall :=
  if webengine then runJavaScript script return_js_value_cb
  else evaluateJavaScript script.

(** The state once the document has received one more call. *)
Definition record_call (c : DocCall) (s : State) : State :=
  with_doc_calls (doc_calls s ++ [c]) s.

(** The calls a method adds to those the document had received. *)
Definition calls_issued_by {A : Type} (m : Py A) (s : State) : list DocCall :=
  drop (length (doc_calls s)) (doc_calls (snd (m s))).

(** The text of a [setOption] command. *)
Definition setOption_text (option_name option : string) : string :=
  PREFIX +:+ "setOption(" +:+ dquote +:+ option_name +:+ dquote +:+ ", "
    +:+ dquote +:+ option +:+ dquote +:+ ")".

(** Whether a call is a [setOption] command for the given option name. *)
Definition is_setOption_of (option_name : string) (c : DocCall) : bool :=
  String.prefix (PREFIX +:+ "setOption(" +:+ dquote +:+ option_name +:+ dquote)
                (script_of c).

(** Among [calls], a [setOption] of [first] occurs at an earlier position
    than a [setOption] of [second]. *)
Definition issued_before (first second : string) (calls : list DocCall) : Prop :=
  exists (i j : nat) (c1 c2 : DocCall),
    (i < j)%nat /\ calls !! i = Some c1 /\ calls !! j = Some c2 /\
    is_setOption_of first c1 = true /\ is_setOption_of second c2 = true.

(** The state before [TerminalWidget.__init__] runs, at event-loop time
    [t0]: no attribute set, nothing connected, nothing observed. *)
Definition blank_state (t0 : Z) : State :=
  mkState PyNone "" [] [] [] [] [] [] [] t0 [] [].

(** ** Concrete collaborators for running the model *)

Definition isAlive_script : string := PREFIX +:+ "isAlive()".

Definition is_poll (c : DocCall) : bool := String.eqb (script_of c) isAlive_script.

(** Number of [isAlive()] polls among the calls a document received. *)
Definition polls (calls : list DocCall) : nat := length (List.filter is_poll calls).

(** A rendering surface whose [isAlive()] evaluates to [true] on the first
    [N] polls and to [false] on every later one; other scripts evaluate to
    nothing. *)
Definition alive_for (N : nat) (earlier : list DocCall) (script : string) : PyVal :=
  if String.eqb script isAlive_script then PyBool (polls earlier <? N)%nat
  else PyNone.

(** Name of a character key: the upper-case character itself. *)
Definition key_name (code : Z) : string :=
  if (0x21 <=? code) && (code <=? 0x7e) then
    let code := if (0x61 <=? code) && (code <=? 0x7a) then code - 0x20 else code in
    String (Ascii.ascii_of_N (Z.to_N code)) EmptyString
  else "".

(** Portable text of a key value for character keys, as Qt renders it off
    macOS: the modifier names in the order Meta, Ctrl, Alt, Shift, then the
    key name. *)
Definition sample_portable_text (key : Z) : string :=
  let has := fun m => Z.land key m =? m in
  (if has Qt.META then "Meta+" else "") +:+
  (if has Qt.CTRL then "Ctrl+" else "") +:+
  (if has Qt.ALT then "Alt+" else "") +:+
  (if has Qt.SHIFT then "Shift+" else "") +:+
  key_name (Z.land key 0x01ffffff).

(** A base-class handler that leaves the event alone. *)
Definition sample_WebView_event (event : QEvent) : Py (bool * QEvent) :=
  py_ret (false, event).

Definition key_event (key modifiers : Z) : QEvent :=
  mkQEvent ShortcutOverride key modifiers false.

(** C, V and T pressed with the modifiers of the three chords, and a plain
    letter. *)
Definition copy_chord_event : QEvent :=
  key_event 0x43 (Z.lor Qt.ControlModifier Qt.ShiftModifier).
Definition paste_chord_event : QEvent :=
  key_event 0x56 (Z.lor Qt.ControlModifier Qt.ShiftModifier).
Definition toggle_chord_event : QEvent :=
  key_event 0x54 (Z.lor Qt.ControlModifier (Z.lor Qt.AltModifier Qt.ShiftModifier)).
Definition plain_a_event : QEvent := key_event 0x41 0.

(** Option dictionaries used as examples. *)
Definition sample_options : gmap string PyVal :=
  <["sound" := PyBool true]> (<["cursor_type" := PyInt 1]> (<["buffer_limit" := PyInt 1000]> ∅)).

Definition out_of_range_options : gmap string PyVal :=
  <["sound" := PyBool true]> (<["cursor_type" := PyInt 7]> ∅).

Definition sample_get_option (option : string) : PyVal :=
  default PyNone (sample_options !! option).

(** ** The classes of terminalgui.py *)

Section Widget.

(** Whether Qt runs on the WebEngine backend ([qtpy]'s [WEBENGINE]). *)
Variable WEBENGINE : bool.

(** The rendering surface: the value the document computes for a script,
    given the calls it has received before. *)
Variable respond : list DocCall -> string -> PyVal.

(** The host configuration: [parent.CONF.options(CONF_SECTION)] and
    [parent.get_option]. *)
Variable CONF_options : list string.
Variable get_option : string -> PyVal.

(** [QKeySequence(key).toString(QKeySequence.PortableText)] *)
Variable QKeySequence_toString : Z -> string.

(** The inherited [WebView.event]. *)
Variable WebView_event : QEvent -> Py (bool * QEvent).

(** *** The document of the page *)

(** [QWebFrame.evaluateJavaScript]: runs the script and hands its value
    back. *)
Definition Document_evaluateJavaScript (script : string) : Py PyVal :=
  fun s =>
    (Returns (respond (doc_calls s) script),
     with_doc_calls (doc_calls s ++ [evaluateJavaScript script]) s).

(** [QWebEnginePage.runJavaScript]: schedules the script, returns at once. *)
Definition Document_runJavaScript (script : string) (cb : JsCallback) : Py unit :=
  modify (fun s => with_doc_calls (doc_calls s ++ [runJavaScript script cb]) s).

(** *** TermView *)

Definition TermView_copy : Py unit := triggerPageAction Copy.

Definition TermView_paste : Py unit := triggerPageAction Paste.

Definition TermView_return_js_value (value : PyVal) : Py PyVal := py_ret value.

Definition TermView_eval_javascript (script : string) : Py PyVal :=
  let script := PREFIX +:+ script in
  if WEBENGINE then
    Document_runJavaScript (py_str (PyStr script)) return_js_value_cb ;;;
    py_ret PyNone
  else
    _ <- Document_evaluateJavaScript (py_str (PyStr script)) ;;
    py_ret PyNone.

Definition TermView_init (term_url : string) : Py unit :=
  (if WEBENGINE
   then modify (fun s => with_registered (registered s ++ ["handler"]) s)
   else py_ret tt) ;;;
  modify (fun s => with_loaded (loaded s ++ [term_url]) s).

Definition TermView_wheelEvent (event : QWheelEvent) : Py unit :=
  let delta := snd (angleDelta event) in
  _ <- TermView_eval_javascript ("scrollTerm(" +:+ py_str (PyInt delta) +:+ ")") ;;
  py_ret tt.

Definition has_flag (modifiers flag : Z) : bool :=
  negb (Z.land modifiers flag =? 0).

(** The key value built from the key code and the modifier flags. *)
Definition chord_key (event : QEvent) : Z :=
  let key := ev_key event in
  let modifiers := ev_modifiers event in
  let key := if has_flag modifiers Qt.ShiftModifier then key + Qt.SHIFT else key in
  let key := if has_flag modifiers Qt.ControlModifier then key + Qt.CTRL else key in
  let key := if has_flag modifiers Qt.AltModifier then key + Qt.ALT else key in
  let key := if has_flag modifiers Qt.MetaModifier then key + Qt.META else key in
  key.

Definition QEvent_accept (event : QEvent) : QEvent :=
  mkQEvent (ev_type event) (ev_key event) (ev_modifiers event) true.

Definition QEvent_ignore (event : QEvent) : QEvent :=
  mkQEvent (ev_type event) (ev_key event) (ev_modifiers event) false.

(** [TermView.event]: the returned pair holds the method's result and the
    event object as the method leaves it. *)
Definition TermView_event (event : QEvent) : Py (bool * QEvent) :=
  match ev_type event with
  | ShortcutOverride =>
      let sequence := QKeySequence_toString (chord_key event) in
      if String.eqb sequence "Ctrl+Alt+Shift+T" then
        py_ret (false, QEvent_ignore event)
      else
        (if String.eqb sequence "Ctrl+Shift+C" then TermView_copy
         else if String.eqb sequence "Ctrl+Shift+V" then TermView_paste
         else py_ret tt) ;;;
        py_ret (true, QEvent_accept event)
  | OtherEventType => WebView_event event
  end.

(** *** TerminalWidget *)

Definition eval_javascript (script : string) : Py PyVal :=
  TermView_eval_javascript script.

Definition set_dir (path : string) : Py unit :=
  _ <- eval_javascript ("setcwd(" +:+ dquote +:+ py_str (PyStr path) +:+ dquote +:+ ")") ;;
  py_ret tt.

Definition set_font (new_font : PyVal) : Py unit :=
  modify (with_font new_font) ;;;
  s <- get_state ;;
  _ <- eval_javascript ("fitFont(" +:+ dquote +:+ py_str (font s) +:+ dquote +:+ ")") ;;
  py_ret tt.

Definition get_fonts : Py PyVal := eval_javascript "getFonts()".

Definition search_next (regex : string) : Py PyVal :=
  eval_javascript ("searchNext(" +:+ dquote +:+ py_str (PyStr regex) +:+ dquote +:+ ")").

Definition search_previous (regex : string) : Py PyVal :=
  eval_javascript ("searchPrevious(" +:+ dquote +:+ py_str (PyStr regex) +:+ dquote +:+ ")").

Definition exec_cmd (cmd : string) : Py unit :=
  _ <- eval_javascript ("exec(" +:+ dquote +:+ py_str (PyStr cmd) +:+ dquote +:+ ")") ;;
  py_ret tt.

Definition is_alive : Py PyVal :=
  alive <- eval_javascript "isAlive()" ;;
  py_ret alive.

Definition alive_loopback : Py unit :=
  alive <- is_alive ;;
  if negb (py_truthy alive) then emit terminal_closed
  else QTimer_singleShot 250 alive_loopback_cb.

Definition set_option (option_name option : string) : Py unit :=
  _ <- eval_javascript
         ("setOption(" +:+ dquote +:+ py_str (PyStr option_name) +:+ dquote +:+ ", "
            +:+ dquote +:+ py_str (PyStr option) +:+ dquote +:+ ")") ;;
  py_ret tt.

Definition cursor_choices : list (PyVal * string) :=
  [(PyInt 0, "block"); (PyInt 1, "underline"); (PyInt 2, "bar")].

(** [cursor_choices[cursor_id]] *)
Definition cursor_choices_getitem (cursor_id : PyVal) : Py string :=
  match literal_lookup cursor_choices cursor_id with
  | Some name => py_ret name
  | None => raise (KeyError cursor_id)
  end.

Definition apply_settings (options : gmap string PyVal) : Py unit :=
  (if dict_contains "sound" options then
     sound <- dict_getitem options "sound" ;;
     let bell_style := if py_truthy sound then "sound" else "none" in
     set_option "bellStyle" bell_style
   else py_ret tt) ;;;
  (if dict_contains "cursor_type" options then
     cursor_id <- dict_getitem options "cursor_type" ;;
     name <- cursor_choices_getitem cursor_id ;;
     set_option "cursorStyle" name
   else py_ret tt).

(** The dictionary built by the loop of [setup_term]. *)
Definition options_snapshot : gmap string PyVal :=
  foldl (fun dict_options option => <[option := get_option option]> dict_options)
        ∅ CONF_options.

Definition setup_term : Py unit :=
  print (String (Ascii.ascii_of_nat 0) EmptyString) ;;;
  s <- get_state ;;
  set_font (font s) ;;;
  s <- get_state ;;
  set_dir (initial_path s) ;;;
  apply_settings options_snapshot.

(** *** ChannelHandler *)

Definition run_slot (slot : Slot) : Py unit :=
  match slot with
  | emit_terminal_ready => emit terminal_ready
  | emit_terminal_closed => emit terminal_closed
  | slot_setup_term => setup_term
  end.

(** Emitting a signal calls its slots in the order of connection.  The
    outcome of a slot is kept as the outcome of the run, so that what a slot
    did and how it ended can be read off; the Qt bindings report an
    exception of a slot at the slot and the emission itself returns. *)
Fixpoint run_slots (slots : list Slot) : Py unit :=
  match slots with
  | [] => py_ret tt
  | slot :: rest => run_slot slot ;;; run_slots rest
  end.

Definition ChannelHandler_ready : Py unit :=
  s <- get_state ;; run_slots (sig_ready s).

Definition ChannelHandler_close : Py unit :=
  s <- get_state ;; run_slots (sig_closed s).

(** *** Construction *)

Definition TerminalWidget_init (port : Z) (path : string) (new_font : PyVal) : Py unit :=
  let url := "http://127.0.0.1:" +:+ py_str (PyInt port) +:+ "?path=" +:+ py_str (PyStr path) in
  modify (fun s => with_sig_ready (sig_ready s ++ [emit_terminal_ready]) s) ;;;
  modify (fun s => with_sig_closed (sig_closed s ++ [emit_terminal_closed]) s) ;;;
  TermView_init url ;;;
  modify (with_font new_font) ;;;
  modify (with_initial_path path) ;;;
  modify (fun s => with_sig_ready (sig_ready s ++ [slot_setup_term]) s) ;;;
  if negb WEBENGINE then QTimer_singleShot 250 alive_loopback_cb else py_ret tt.

(** *** The event loop's timers *)

Definition run_timer_callback (cb : TimerCallback) : Py unit :=
  match cb with
  | alive_loopback_cb => alive_loopback
  end.

(** The pending timer that is due first (the oldest one among equals). *)
Fixpoint earliest (pending : list (Z * TimerCallback)) : option (Z * TimerCallback) :=
  match pending with
  | [] => None
  | t :: rest =>
      match earliest rest with
      | Some t' => if fst t' <? fst t then Some t' else Some t
      | None => Some t
      end
  end.

Fixpoint remove_timer (t : Z * TimerCallback) (pending : list (Z * TimerCallback))
  : list (Z * TimerCallback) :=
  match pending with
  | [] => []
  | t' :: rest =>
      if bool_decide (t' = t) then rest else t' :: remove_timer t rest
  end.

(** Fires the next timer, if one is pending; answers whether one fired. *)
Definition fire_next_timer : Py bool :=
  s <- get_state ;;
  match earliest (timers s) with
  | None => py_ret false
  | Some t =>
      modify (fun s => with_clock (Z.max (clock s) (fst t))
                         (with_timers (remove_timer t (timers s)) s)) ;;;
      run_timer_callback (snd t) ;;;
      py_ret true
  end.

(** Runs timers until none is pending, at most [fuel] of them. *)
Fixpoint run_timers (fuel : nat) : Py unit :=
  match fuel with
  | O => py_ret tt
  | S fuel' =>
      fired <- fire_next_timer ;;
      if fired then run_timers fuel' else py_ret tt
  end.


(** ** Properties *)

(** *** The monad *)

Lemma py_bind_returns {A B : Type} (m : Py A) (k : A -> Py B) s a s' :
  m s = (Returns a, s') -> py_bind m k s = k a s'.
Proof. intros H. unfold py_bind. rewrite H. reflexivity. Qed.

Lemma py_bind_raises {A B : Type} (m : Py A) (k : A -> Py B) s e s' :
  m s = (Raises e, s') -> py_bind m k s = (Raises e, s').
Proof. intros H. unfold py_bind. rewrite H. reflexivity. Qed.

Lemma dict_contains_Some key (d : gmap string PyVal) v :
  d !! key = Some v -> dict_contains key d = true.
Proof. intros H. unfold dict_contains. apply bool_decide_eq_true_2. eauto. Qed.

Lemma dict_contains_None key (d : gmap string PyVal) :
  d !! key = None -> dict_contains key d = false.
Proof.
  intros H. unfold dict_contains. apply bool_decide_eq_false_2.
  rewrite H. intros [v Hv]. discriminate.
Qed.

Lemma doc_calls_record_call c s : doc_calls (record_call c s) = (doc_calls s ++ [c])%list.
Proof. reflexivity. Qed.

(** *** The command channel *)

(** Every command goes to the document with the prefix in front, and the
    method hands [None] back on either backend. *)
Lemma TermView_eval_javascript_spec script s :
  TermView_eval_javascript script s
  = (Returns PyNone, record_call (issued WEBENGINE (PREFIX +:+ script)) s).
Proof.
  unfold TermView_eval_javascript, issued.
  destruct WEBENGINE; reflexivity.
Qed.

Lemma eval_javascript_spec script s :
  eval_javascript script s
  = (Returns PyNone, record_call (issued WEBENGINE (PREFIX +:+ script)) s).
Proof. apply TermView_eval_javascript_spec. Qed.

Lemma set_option_spec option_name option s :
  set_option option_name option s
  = (Returns tt, record_call (issued WEBENGINE (setOption_text option_name option)) s).
Proof.
  unfold set_option.
  erewrite py_bind_returns by apply eval_javascript_spec.
  reflexivity.
Qed.

Lemma set_dir_spec path s :
  set_dir path s
  = (Returns tt,
     record_call (issued WEBENGINE
                    (PREFIX +:+ "setcwd(" +:+ dquote +:+ path +:+ dquote +:+ ")")) s).
Proof.
  unfold set_dir.
  erewrite py_bind_returns by apply eval_javascript_spec.
  reflexivity.
Qed.

Lemma set_font_spec new_font s :
  set_font new_font s
  = (Returns tt,
     record_call (issued WEBENGINE
                    (PREFIX +:+ "fitFont(" +:+ dquote +:+ py_str new_font +:+ dquote +:+ ")"))
       (with_font new_font s)).
Proof.
  unfold set_font, modify, get_state, py_bind.
  rewrite eval_javascript_spec. reflexivity.
Qed.

(** C5: for every path, [set_dir] hands the document exactly the text
    [setcwd("<path>")] preceded by the prefix [spyder_terminal.default.],
    as one call and nothing else; for [/tmp/x] the text is
    [spyder_terminal.default.setcwd("/tmp/x")]. *)
Theorem set_dir_serializes_prefixed_setcwd (path : string) (s : State) :
  set_dir path s
  = (Returns tt,
     record_call
       (issued WEBENGINE
          ("spyder_terminal.default." +:+ "setcwd(" +:+ dquote +:+ path +:+ dquote +:+ ")"))
       s)
  /\ map script_of (doc_calls (state_after (set_dir "/tmp/x") s))
     = (map script_of (doc_calls s)
        ++ ["spyder_terminal.default.setcwd(" +:+ dquote +:+ "/tmp/x" +:+ dquote +:+ ")"])%list.
Proof.
  split.
  - apply set_dir_spec.
  - unfold state_after. rewrite set_dir_spec. cbn [snd].
    rewrite doc_calls_record_call, map_app. f_equal.
    unfold issued. destruct WEBENGINE; reflexivity.
Qed.

(** *** Settings *)

(** What [apply_settings] does, by the two keys it reads. *)
Lemma apply_settings_unfold (options : gmap string PyVal) s :
  apply_settings options s
  = let s1 :=
      match options !! "sound" with
      | Some sound =>
          record_call
            (issued WEBENGINE
               (setOption_text "bellStyle" (if py_truthy sound then "sound" else "none")))
            s
      | None => s
      end in
    match options !! "cursor_type" with
    | None => (Returns tt, s1)
    | Some cursor_id =>
        match literal_lookup cursor_choices cursor_id with
        | Some name =>
            (Returns tt,
             record_call (issued WEBENGINE (setOption_text "cursorStyle" name)) s1)
        | None => (Raises (KeyError cursor_id), s1)
        end
    end.
Proof.
  unfold apply_settings.
  destruct (options !! "sound") as [sound|] eqn:Hs;
    destruct (options !! "cursor_type") as [cursor_id|] eqn:Hc.
  all: first [rewrite (dict_contains_Some _ _ _ Hs) | rewrite (dict_contains_None _ _ Hs)].
  all: first [rewrite (dict_contains_Some _ _ _ Hc) | rewrite (dict_contains_None _ _ Hc)].
  all: unfold dict_getitem; rewrite ?Hs, ?Hc.
  all: cbn zeta; unfold py_bind at 1; cbn [py_ret].
  all: rewrite ?set_option_spec.
  all: unfold py_bind, py_ret, cursor_choices_getitem.
  all: try destruct (literal_lookup cursor_choices cursor_id) as [name|];
    unfold py_ret, raise; rewrite ?set_option_spec; reflexivity.
Qed.

Lemma calls_issued_by_record_call {A : Type} (m : Py A) s a c :
  m s = (a, record_call c s) -> calls_issued_by m s = [c].
Proof.
  intros H. unfold calls_issued_by. rewrite H. cbn [snd].
  rewrite doc_calls_record_call. apply drop_app_length.
Qed.

Lemma calls_issued_by_record_call2 {A : Type} (m : Py A) s a c1 c2 :
  m s = (a, record_call c2 (record_call c1 s)) -> calls_issued_by m s = [c1; c2].
Proof.
  intros H. unfold calls_issued_by. rewrite H. cbn [snd].
  rewrite !doc_calls_record_call, <- app_assoc. apply drop_app_length.
Qed.

(** C3: with [sound = True] and [cursor_type = 1] in the options, whatever
    other keys are there, [apply_settings] returns normally after exactly two
    calls, [setOption("bellStyle", "sound")] and
    [setOption("cursorStyle", "underline")], and changes nothing else; a key
    other than [sound] and [cursor_type] makes no difference to what
    [apply_settings] does. *)
Theorem apply_settings_sound_underline
    (options : gmap string PyVal) (s : State) (key : string) (v : PyVal) :
  options !! "sound" = Some (PyBool true) ->
  options !! "cursor_type" = Some (PyInt 1) ->
  key <> "sound" -> key <> "cursor_type" ->
  apply_settings options s
  = (Returns tt,
     record_call (issued WEBENGINE (setOption_text "cursorStyle" "underline"))
       (record_call (issued WEBENGINE (setOption_text "bellStyle" "sound")) s))
  /\ calls_issued_by (apply_settings options) s
     = [issued WEBENGINE (setOption_text "bellStyle" "sound");
        issued WEBENGINE (setOption_text "cursorStyle" "underline")]
  /\ apply_settings (<[key := v]> options) s = apply_settings options s
  /\ apply_settings (delete key options) s = apply_settings options s.
Proof.
  intros Hs Hc Hk1 Hk2.
  assert (Heq : apply_settings options s
    = (Returns tt,
       record_call (issued WEBENGINE (setOption_text "cursorStyle" "underline"))
         (record_call (issued WEBENGINE (setOption_text "bellStyle" "sound")) s))).
  { rewrite apply_settings_unfold, Hs, Hc. reflexivity. }
  split; [exact Heq|]. split.
  - eapply calls_issued_by_record_call2. exact Heq.
  - split.
    + rewrite !apply_settings_unfold.
      rewrite !lookup_insert_ne by congruence. reflexivity.
    + rewrite !apply_settings_unfold.
      rewrite !lookup_delete_ne by congruence. reflexivity.
Qed.

(** Options without [sound] and [cursor_type] produce no call and no error. *)
Lemma apply_settings_unrecognized (options : gmap string PyVal) s :
  options !! "sound" = None -> options !! "cursor_type" = None ->
  apply_settings options s = (Returns tt, s).
Proof. intros Hs Hc. rewrite apply_settings_unfold, Hs, Hc. reflexivity. Qed.

(** C7: when [cursor_type] is one of the integers 0, 1, 2, [apply_settings]
    returns normally and its last call sets the cursor style named by the
    table, which sends 0 to [block], 1 to [underline] and 2 to [bar]; and
    whenever [apply_settings] raises, on any options, the exception is the
    [KeyError] of the cursor table for a [cursor_type] value the table does
    not have. *)
Theorem apply_settings_cursor_in_range
    (options : gmap string PyVal) (s : State) (cursor_id : Z) :
  options !! "cursor_type" = Some (PyInt cursor_id) ->
  0 <= cursor_id <= 2 ->
  fst (apply_settings options s) = Returns tt
  /\ (literal_lookup cursor_choices (PyInt 0) = Some "block"
      /\ literal_lookup cursor_choices (PyInt 1) = Some "underline"
      /\ literal_lookup cursor_choices (PyInt 2) = Some "bar")
  /\ (exists name,
        literal_lookup cursor_choices (PyInt cursor_id) = Some name
        /\ last (doc_calls (snd (apply_settings options s)))
           = Some (issued WEBENGINE (setOption_text "cursorStyle" name)))
  /\ (forall (options' : gmap string PyVal) (s' : State) (e : PyExn),
        fst (apply_settings options' s') = Raises e ->
        exists v,
          options' !! "cursor_type" = Some v
          /\ literal_lookup cursor_choices v = None
          /\ e = KeyError v).
Proof.
  intros Hc Hrange.
  assert (Hname : exists name, literal_lookup cursor_choices (PyInt cursor_id) = Some name).
  { assert (cursor_id = 0 \/ cursor_id = 1 \/ cursor_id = 2) as [->|[->| ->]] by lia;
      eexists; reflexivity. }
  destruct Hname as [name Hname].
  repeat split.
  - rewrite apply_settings_unfold, Hc. cbn zeta. rewrite Hname. reflexivity.
  - exists name. split; [exact Hname|].
    rewrite apply_settings_unfold, Hc. cbn zeta. rewrite Hname. cbn [snd].
    rewrite doc_calls_record_call. apply last_snoc.
  - intros options' s' e. rewrite apply_settings_unfold. cbn zeta.
    destruct (options' !! "cursor_type") as [v|]; [|discriminate].
    destruct (literal_lookup cursor_choices v) as [n|] eqn:Hv; [discriminate|].
    cbn [fst]. intros [= <-]. exists v. auto.
Qed.

(** C9: when the options hold both [sound] and [cursor_type], whatever
    their values, the first call [apply_settings] makes is the [bellStyle]
    one, and a [bellStyle] call and a [cursorStyle] call among its calls
    are always in that order, the [bellStyle] call strictly first; when
    [apply_settings] returns normally its calls are exactly two, the
    [bellStyle] call and after it the [cursorStyle] call. *)
Theorem apply_settings_bell_before_cursor
    (options : gmap string PyVal) (s : State) (sound cursor_id : PyVal) :
  options !! "sound" = Some sound ->
  options !! "cursor_type" = Some cursor_id ->
  let calls := calls_issued_by (apply_settings options) s in
  (exists bell,
     calls !! 0%nat = Some bell /\ is_setOption_of "bellStyle" bell = true)
  /\ (forall (i j : nat) (c1 c2 : DocCall),
        calls !! i = Some c1 -> calls !! j = Some c2 ->
        is_setOption_of "bellStyle" c1 = true ->
        is_setOption_of "cursorStyle" c2 = true ->
        (i < j)%nat)
  /\ (fst (apply_settings options s) = Returns tt ->
      length calls = 2%nat /\ issued_before "bellStyle" "cursorStyle" calls).
Proof.
  intros Hs Hc calls.
  set (bell := issued WEBENGINE
                 (setOption_text "bellStyle"
                    (if py_truthy sound then "sound" else "none"))).
  assert (Hbell : is_setOption_of "bellStyle" bell = true).
  { subst bell. unfold issued.
    destruct WEBENGINE, (py_truthy sound); vm_compute; reflexivity. }
  assert (Hnot : is_setOption_of "cursorStyle" bell = false).
  { subst bell. unfold issued.
    destruct WEBENGINE, (py_truthy sound); vm_compute; reflexivity. }
  assert (Hcur : forall name,
            is_setOption_of "cursorStyle"
              (issued WEBENGINE (setOption_text "cursorStyle" name)) = true
            /\ is_setOption_of "bellStyle"
                 (issued WEBENGINE (setOption_text "cursorStyle" name)) = false).
  { intros name. unfold issued.
    destruct WEBENGINE; split; vm_compute; reflexivity. }
  assert (Hcalls : calls = bell ::
            match literal_lookup cursor_choices cursor_id with
            | Some name => [issued WEBENGINE (setOption_text "cursorStyle" name)]
            | None => []
            end).
  { subst calls.
    destruct (literal_lookup cursor_choices cursor_id) as [name|] eqn:Hn.
    - eapply calls_issued_by_record_call2.
      rewrite apply_settings_unfold, Hs, Hc. cbn zeta. rewrite Hn. reflexivity.
    - eapply calls_issued_by_record_call.
      rewrite apply_settings_unfold, Hs, Hc. cbn zeta. rewrite Hn. reflexivity. }
  split; [exists bell; rewrite Hcalls; split; [reflexivity|exact Hbell]|].
  split.
  - intros i j c1 c2 Hi Hj H1 H2. rewrite Hcalls in Hi, Hj.
    destruct (literal_lookup cursor_choices cursor_id) as [name|].
    + destruct (Hcur name) as [_ Hcb].
      destruct i as [|[|i]]; destruct j as [|[|j]];
        cbn in Hi, Hj; try discriminate Hi; try discriminate Hj;
        injection Hi as <-; injection Hj as <-; try lia; congruence.
    + destruct i as [|i]; destruct j as [|j];
        cbn in Hi, Hj; try discriminate Hi; try discriminate Hj.
      injection Hj as <-. congruence.
  - intros Hret.
    rewrite apply_settings_unfold, Hs, Hc in Hret. cbn zeta in Hret.
    destruct (literal_lookup cursor_choices cursor_id) as [name|];
      [|discriminate Hret].
    rewrite Hcalls. split; [reflexivity|].
    exists 0%nat, 1%nat, bell, (issued WEBENGINE (setOption_text "cursorStyle" name)).
    split; [lia|]. split; [reflexivity|]. split; [reflexivity|].
    split; [exact Hbell|apply Hcur].
Qed.

Lemma apply_settings_appends (options : gmap string PyVal) s :
  doc_calls (snd (apply_settings options s))
  = (doc_calls s ++ calls_issued_by (apply_settings options) s)%list.
Proof.
  assert (H : exists k, doc_calls (snd (apply_settings options s))
                        = (doc_calls s ++ k)%list).
  { rewrite apply_settings_unfold. cbn zeta.
    destruct (options !! "sound") as [sound|];
      destruct (options !! "cursor_type") as [cursor_id|];
      try destruct (literal_lookup cursor_choices cursor_id) as [name|];
      cbn [snd]; rewrite ?doc_calls_record_call, <- ?app_assoc;
      first [by eexists | by exists []; rewrite app_nil_r]. }
  destruct H as [k Hk]. unfold calls_issued_by.
  rewrite Hk, drop_app_length. reflexivity.
Qed.

(** *** Fonts and scrolling *)

(** C8: two [set_font] calls in a row with the same font hand the document
    the same [fitFont] command twice, both return normally, and the stored
    font and every other attribute after the second call are what they were
    after the first; the states differ only by the second command in the
    document's trace. *)
Theorem set_font_twice (new_font : PyVal) (s : State) :
  let fit :=
    issued WEBENGINE
      (PREFIX +:+ "fitFont(" +:+ dquote +:+ py_str new_font +:+ dquote +:+ ")") in
  let s1 := snd (set_font new_font s) in
  let s2 := snd (set_font new_font s1) in
  calls_issued_by (set_font new_font) s = [fit]
  /\ calls_issued_by (set_font new_font) s1 = [fit]
  /\ doc_calls s2 = (doc_calls s ++ [fit; fit])%list
  /\ fst (set_font new_font s) = Returns tt
  /\ fst (set_font new_font s1) = Returns tt
  /\ font s1 = new_font
  /\ font s2 = font s1
  /\ s2 = record_call fit s1.
Proof.
  intros fit s1 s2. subst s1 s2 fit.
  rewrite !set_font_spec. cbn [fst snd].
  unfold calls_issued_by. rewrite !set_font_spec. cbn [snd].
  repeat split.
  - rewrite doc_calls_record_call. apply drop_app_length.
  - rewrite doc_calls_record_call. apply drop_app_length.
  - cbn [doc_calls with_font record_call with_doc_calls].
    rewrite <- app_assoc. reflexivity.
Qed.

(** C10: a wheel event makes exactly one call, [scrollTerm(<delta>)] with
    the vertical angle delta of the event written in decimal, returns
    normally and changes nothing else. *)
Theorem wheelEvent_scrolls_once (event : QWheelEvent) (s : State) :
  let scroll :=
    issued WEBENGINE
      (PREFIX +:+ "scrollTerm(" +:+ pretty (snd (angleDelta event)) +:+ ")") in
  TermView_wheelEvent event s = (Returns tt, record_call scroll s)
  /\ calls_issued_by (TermView_wheelEvent event) s = [scroll].
Proof.
  intros scroll.
  assert (H : TermView_wheelEvent event s = (Returns tt, record_call scroll s)).
  { unfold TermView_wheelEvent.
    erewrite py_bind_returns by apply TermView_eval_javascript_spec.
    reflexivity. }
  split; [exact H|].
  eapply calls_issued_by_record_call. exact H.
Qed.

(** *** The ready notification *)

Lemma py_bind_ret_unit (m : Py unit) s : py_bind m (fun _ => py_ret tt) s = m s.
Proof. unfold py_bind. destruct (m s) as [[[]|e] s']; reflexivity. Qed.

Lemma setup_term_spec s :
  setup_term s
  = apply_settings options_snapshot
      (record_call
         (issued WEBENGINE
            (PREFIX +:+ "setcwd(" +:+ dquote +:+ initial_path s +:+ dquote +:+ ")"))
         (record_call
            (issued WEBENGINE
               (PREFIX +:+ "fitFont(" +:+ dquote +:+ py_str (font s) +:+ dquote +:+ ")"))
            (with_font (font s)
               (with_stdout (stdout s ++ [String (Ascii.ascii_of_nat 0) EmptyString]) s)))).
Proof.
  unfold setup_term, print, modify, get_state.
  unfold py_bind at 1. unfold py_bind at 1. unfold py_bind at 1.
  rewrite set_font_spec.
  unfold py_bind at 1. unfold py_bind at 1.
  rewrite set_dir_spec. reflexivity.
Qed.

(** C6: on a widget whose ready signal has the connections made by the
    constructor, the ready notification emits [terminal_ready] and then
    hands the document [fitFont] with the stored font, then [setcwd] with
    the stored initial path, and only then runs [apply_settings] on the
    snapshot of the options; the calls of [apply_settings] come after the
    two. *)
Theorem ready_font_then_cwd_then_settings (s : State) :
  sig_ready s = [emit_terminal_ready; slot_setup_term] ->
  let fit :=
    issued WEBENGINE
      (PREFIX +:+ "fitFont(" +:+ dquote +:+ py_str (font s) +:+ dquote +:+ ")") in
  let cwd :=
    issued WEBENGINE
      (PREFIX +:+ "setcwd(" +:+ dquote +:+ initial_path s +:+ dquote +:+ ")") in
  let s2 :=
    record_call cwd
      (record_call fit
         (with_font (font s)
            (with_stdout (stdout s ++ [String (Ascii.ascii_of_nat 0) EmptyString])
               (with_emitted (emitted s ++ [terminal_ready]) s)))) in
  ChannelHandler_ready s = apply_settings options_snapshot s2
  /\ calls_issued_by ChannelHandler_ready s
     = ([fit; cwd] ++ calls_issued_by (apply_settings options_snapshot) s2)%list.
Proof.
  intros Hconn fit cwd s2.
  assert (H : ChannelHandler_ready s = apply_settings options_snapshot s2).
  { unfold ChannelHandler_ready, get_state. unfold py_bind at 1.
    rewrite Hconn. cbn [run_slots run_slot].
    unfold emit, modify. unfold py_bind at 1.
    rewrite py_bind_ret_unit, setup_term_spec. reflexivity. }
  split; [exact H|].
  unfold calls_issued_by at 1. rewrite H, apply_settings_appends.
  subst s2. rewrite !doc_calls_record_call. cbn [doc_calls with_font with_stdout with_emitted].
  rewrite <- !app_assoc. rewrite drop_app_length. reflexivity.
Qed.

(** The constructor leaves the ready signal connected to the emitter of
    [terminal_ready] and then to [setup_term], stores the font and the path,
    and on the backend without a web channel starts one timer, due 250 ms
    later. *)
Lemma TerminalWidget_init_spec port path new_font t0 :
  let s := snd (TerminalWidget_init port path new_font (blank_state t0)) in
  sig_ready s = [emit_terminal_ready; slot_setup_term]
  /\ sig_closed s = [emit_terminal_closed]
  /\ font s = new_font
  /\ initial_path s = path
  /\ doc_calls s = []
  /\ emitted s = []
  /\ clock s = t0
  /\ timers s = (if WEBENGINE then [] else [(t0 + 250, alive_loopback_cb)]).
Proof.
  unfold TerminalWidget_init, TermView_init. destruct WEBENGINE; repeat split.
Qed.

(** *** Keyboard *)

(** C4: in a shortcut-override event, the chord text [Ctrl+Shift+C]
    triggers the copy action and the event is accepted with result [True];
    [Ctrl+Shift+V] does the same with the paste action; [Ctrl+Alt+Shift+T]
    triggers nothing, the event is ignored and the result is [False]; any
    other chord text triggers nothing and the event is accepted with result
    [True]. *)
Theorem shortcut_override_chords (event : QEvent) (s : State) :
  ev_type event = ShortcutOverride ->
  let sequence := QKeySequence_toString (chord_key event) in
  (sequence = "Ctrl+Shift+C" ->
     TermView_event event s
     = (Returns (true, QEvent_accept event),
        with_page_actions (page_actions s ++ [Copy]) s))
  /\ (sequence = "Ctrl+Shift+V" ->
     TermView_event event s
     = (Returns (true, QEvent_accept event),
        with_page_actions (page_actions s ++ [Paste]) s))
  /\ (sequence = "Ctrl+Alt+Shift+T" ->
     TermView_event event s = (Returns (false, QEvent_ignore event), s))
  /\ (sequence <> "Ctrl+Shift+C" -> sequence <> "Ctrl+Shift+V" ->
      sequence <> "Ctrl+Alt+Shift+T" ->
     TermView_event event s = (Returns (true, QEvent_accept event), s))
  /\ ev_accepted (QEvent_accept event) = true
  /\ ev_accepted (QEvent_ignore event) = false.
Proof.
  intros Htype sequence. unfold TermView_event. rewrite Htype.
  fold sequence. cbn zeta.
  repeat split.
  - intros ->. reflexivity.
  - intros ->. reflexivity.
  - intros ->. reflexivity.
  - intros Hc Hv Ht.
    apply String.eqb_neq in Hc, Hv, Ht. rewrite Hc, Hv, Ht. reflexivity.
Qed.

(** *** Liveness polling *)

Lemma is_alive_spec s :
  is_alive s = (Returns PyNone, record_call (issued WEBENGINE isAlive_script) s).
Proof.
  unfold is_alive.
  erewrite py_bind_returns by apply eval_javascript_spec.
  reflexivity.
Qed.

(** Whatever the document answers, the poll sees [None], emits
    [terminal_closed] and sets no timer. *)
Lemma alive_loopback_spec s :
  alive_loopback s
  = (Returns tt,
     with_emitted (emitted s ++ [terminal_closed])
       (record_call (issued WEBENGINE isAlive_script) s)).
Proof.
  unfold alive_loopback.
  erewrite py_bind_returns by apply is_alive_spec.
  reflexivity.
Qed.

Lemma run_timers_idle fuel s : timers s = [] -> run_timers fuel s = (Returns tt, s).
Proof.
  intros H. destruct fuel as [|fuel]; [reflexivity|].
  cbn [run_timers]. unfold fire_next_timer, get_state.
  unfold py_bind at 1. unfold py_bind at 1. rewrite H. reflexivity.
Qed.

Lemma run_timers_single_poll fuel s due :
  timers s = [(due, alive_loopback_cb)] ->
  run_timers (S fuel) s
  = (Returns tt,
     with_emitted (emitted s ++ [terminal_closed])
       (record_call (issued WEBENGINE isAlive_script)
          (with_clock (Z.max (clock s) due) (with_timers [] s)))).
Proof.
  intros H. cbn [run_timers]. unfold fire_next_timer, get_state.
  unfold py_bind at 1. unfold py_bind at 1. rewrite H.
  cbn [earliest fst snd run_timer_callback].
  unfold modify. unfold py_bind at 1. unfold py_bind at 1.
  rewrite alive_loopback_spec. unfold py_ret at 1. cbn iota.
  rewrite H. cbn [remove_timer emitted with_clock with_timers].
  rewrite bool_decide_eq_true_2 by reflexivity.
  apply run_timers_idle. reflexivity.
Qed.

(** *** Strings and bits *)

Lemma string_length_app (a b : string) :
  String.length (a +:+ b) = (String.length a + String.length b)%nat.
Proof.
  induction a as [|c a IH]; [reflexivity|].
  change (String c a +:+ b) with (String c (a +:+ b)).
  cbn [String.length]. rewrite IH. reflexivity.
Qed.

Lemma string_app_cancel_l (a x y : string) : a +:+ x = a +:+ y -> x = y.
Proof.
  induction a as [|c a IH]; [auto|].
  change (String c a +:+ x) with (String c (a +:+ x)).
  change (String c a +:+ y) with (String c (a +:+ y)).
  intros [= H]. auto.
Qed.

Lemma string_app_cancel_r (b x y : string) : x +:+ b = y +:+ b -> x = y.
Proof.
  revert y. induction x as [|c x IH]; intros [|d y] H.
  - reflexivity.
  - apply (f_equal String.length) in H.
    change (String d y +:+ b) with (String d (y +:+ b)) in H.
    change ("" +:+ b) with b in H.
    cbn [String.length] in H. rewrite string_length_app in H. lia.
  - apply (f_equal String.length) in H.
    change (String c x +:+ b) with (String c (x +:+ b)) in H.
    change ("" +:+ b) with b in H.
    cbn [String.length] in H. rewrite string_length_app in H. lia.
  - change (String c x +:+ b) with (String c (x +:+ b)) in H.
    change (String d y +:+ b) with (String d (y +:+ b)) in H.
    injection H as -> H. f_equal. auto.
Qed.

Lemma string_app_assoc (a b c : string) : (a +:+ b) +:+ c = a +:+ (b +:+ c).
Proof.
  induction a as [|x a IH]; [reflexivity|].
  change (String x a +:+ b) with (String x (a +:+ b)).
  change (String x (a +:+ b) +:+ c) with (String x ((a +:+ b) +:+ c)).
  change (String x a +:+ (b +:+ c)) with (String x (a +:+ (b +:+ c))).
  rewrite IH. reflexivity.
Qed.

Lemma land_pow2 (m n : Z) :
  0 <= n -> Z.land m (2 ^ n) = if Z.testbit m n then 2 ^ n else 0.
Proof.
  intros Hn. apply Z.bits_inj'. intros i Hi.
  rewrite Z.land_spec, Z.pow2_bits_eqb by lia.
  destruct (Z.eqb_spec n i) as [->|Hne].
  - destruct (Z.testbit m i); cbn [andb].
    + rewrite Z.pow2_bits_eqb, Z.eqb_refl by lia. reflexivity.
    + rewrite Z.bits_0. reflexivity.
  - rewrite andb_false_r.
    destruct (Z.testbit m n).
    + rewrite Z.pow2_bits_eqb by lia. symmetry. apply Z.eqb_neq. exact Hne.
    + rewrite Z.bits_0. reflexivity.
Qed.

Lemma testbit_small (x n : Z) : 0 <= n -> 0 <= x < 2 ^ n -> Z.testbit x n = false.
Proof.
  intros Hn Hx. apply Z.testbit_false; [exact Hn|].
  rewrite Z.div_small by exact Hx. reflexivity.
Qed.

(** Adding a modifier flag to a value below it is setting that bit. *)
Lemma add_flag_lor (x m n : Z) :
  0 <= n -> 0 <= x < 2 ^ n ->
  let v := if has_flag m (2 ^ n) then x + 2 ^ n else x in
  v = Z.lor x (Z.land m (2 ^ n)) /\ 0 <= v < 2 ^ (n + 1).
Proof.
  intros Hn Hx v. subst v. unfold has_flag.
  assert (Hpos : 0 < 2 ^ n) by (apply Z.pow_pos_nonneg; lia).
  assert (Hsucc : 2 ^ (n + 1) = 2 * 2 ^ n) by (rewrite Z.pow_add_r by lia; lia).
  rewrite (land_pow2 m n Hn).
  destruct (Z.testbit m n).
  - replace (2 ^ n =? 0) with false by (symmetry; apply Z.eqb_neq; lia).
    cbn [negb]. split; [|lia].
    assert (Hdisj : Z.land x (2 ^ n) = 0).
    { rewrite (land_pow2 x n Hn), (testbit_small x n Hn Hx). reflexivity. }
    rewrite Z.add_nocarry_lxor by exact Hdisj.
    apply Z.lxor_lor. exact Hdisj.
  - cbn. rewrite Z.lor_0_r. split; [reflexivity|lia].
Qed.

(** *** More on the keyboard intercept *)

(** For a key code below the modifier bits, adding the offsets of the
    pressed modifiers is the bitwise or of the key code with the Shift,
    Control, Alt and Meta bits of the modifiers; every other modifier bit
    is dropped. *)
Theorem chord_key_is_bitwise_or (event : QEvent) :
  0 <= ev_key event < 0x02000000 ->
  chord_key event
  = Z.lor (ev_key event)
      (Z.land (ev_modifiers event)
         (Z.lor Qt.ShiftModifier
            (Z.lor Qt.ControlModifier (Z.lor Qt.AltModifier Qt.MetaModifier)))).
Proof.
  intros Hkey. unfold chord_key. cbn zeta.
  change Qt.ShiftModifier with (2 ^ 25). change Qt.SHIFT with (2 ^ 25).
  change Qt.ControlModifier with (2 ^ 26). change Qt.CTRL with (2 ^ 26).
  change Qt.AltModifier with (2 ^ 27). change Qt.ALT with (2 ^ 27).
  change Qt.MetaModifier with (2 ^ 28). change Qt.META with (2 ^ 28).
  change 0x02000000 with (2 ^ 25) in Hkey.
  set (m := ev_modifiers event).
  destruct (add_flag_lor (ev_key event) m 25 ltac:(lia) Hkey) as [E1 B1].
  cbn zeta in E1, B1. change (25 + 1) with 26 in B1.
  set (k1 := if has_flag m (2 ^ 25) then ev_key event + 2 ^ 25 else ev_key event) in *.
  destruct (add_flag_lor k1 m 26 ltac:(lia) B1) as [E2 B2].
  cbn zeta in E2, B2. change (26 + 1) with 27 in B2.
  set (k2 := if has_flag m (2 ^ 26) then k1 + 2 ^ 26 else k1) in *.
  destruct (add_flag_lor k2 m 27 ltac:(lia) B2) as [E3 B3].
  cbn zeta in E3, B3. change (27 + 1) with 28 in B3.
  set (k3 := if has_flag m (2 ^ 27) then k2 + 2 ^ 27 else k2) in *.
  destruct (add_flag_lor k3 m 28 ltac:(lia) B3) as [E4 _].
  cbn zeta in E4. rewrite E4, E3, E2, E1.
  rewrite !Z.land_lor_distr_r, !Z.lor_assoc. reflexivity.
Qed.

(** A shortcut-override event never reaches the document, the signals or the
    timers: the method returns normally, its result says whether it accepted
    the event, it triggers at most one page action, and it refuses the event
    exactly for the chord text [Ctrl+Alt+Shift+T]. *)
Theorem shortcut_override_frame (event : QEvent) (s : State) :
  ev_type event = ShortcutOverride ->
  exists (consumed : bool) (event' : QEvent) (actions : list WebAction),
    TermView_event event s
    = (Returns (consumed, event'),
       if actions is [] then s
       else with_page_actions (page_actions s ++ actions) s)
    /\ ev_accepted event' = consumed
    /\ ev_key event' = ev_key event
    /\ ev_modifiers event' = ev_modifiers event
    /\ (length actions <= 1)%nat
    /\ (consumed = false
        <-> QKeySequence_toString (chord_key event) = "Ctrl+Alt+Shift+T")
    /\ (consumed = false -> actions = []).
Proof.
  intros Htype. unfold TermView_event. rewrite Htype.
  destruct (String.eqb_spec (QKeySequence_toString (chord_key event))
              "Ctrl+Alt+Shift+T") as [Ht|Ht].
  - exists false, (QEvent_ignore event), [].
    repeat split; auto.
  - destruct (String.eqb_spec (QKeySequence_toString (chord_key event))
                "Ctrl+Shift+C") as [Hc|Hc];
      [|destruct (String.eqb_spec (QKeySequence_toString (chord_key event))
                   "Ctrl+Shift+V") as [Hv|Hv]].
    + exists true, (QEvent_accept event), [Copy].
      repeat split; auto; try discriminate. intros; contradiction.
    + exists true, (QEvent_accept event), [Paste].
      repeat split; auto; try discriminate. intros; contradiction.
    + exists true, (QEvent_accept event), [].
      repeat split; auto; try discriminate. intros; contradiction.
Qed.

(** *** More on the command channel *)

(** [get_fonts], [search_next] and [search_previous] each hand the document
    one call, with the text [getFonts()], [searchNext("<regex>")] and
    [searchPrevious("<regex>")] behind the prefix, and each returns [None]
    to its caller on either backend. *)
Theorem query_commands_return_None (regex : string) (s : State) :
  get_fonts s
  = (Returns PyNone, record_call (issued WEBENGINE (PREFIX +:+ "getFonts()")) s)
  /\ search_next regex s
     = (Returns PyNone,
        record_call
          (issued WEBENGINE
             (PREFIX +:+ "searchNext(" +:+ dquote +:+ regex +:+ dquote +:+ ")")) s)
  /\ search_previous regex s
     = (Returns PyNone,
        record_call
          (issued WEBENGINE
             (PREFIX +:+ "searchPrevious(" +:+ dquote +:+ regex +:+ dquote +:+ ")")) s).
Proof.
  unfold get_fonts, search_next, search_previous.
  rewrite !eval_javascript_spec. repeat split.
Qed.

(** [exec_cmd] hands the document the single call [exec("<cmd>")] behind the
    prefix, with the command text copied as it is, and changes nothing else. *)
Theorem exec_cmd_serializes (cmd : string) (s : State) :
  exec_cmd cmd s
  = (Returns tt,
     record_call
       (issued WEBENGINE (PREFIX +:+ "exec(" +:+ dquote +:+ cmd +:+ dquote +:+ ")")) s)
  /\ forall c, calls_issued_by (exec_cmd cmd) s = [c] ->
       String.length (script_of c)
       = (String.length PREFIX + 8 + String.length cmd)%nat.
Proof.
  assert (H : exec_cmd cmd s
    = (Returns tt,
       record_call
         (issued WEBENGINE (PREFIX +:+ "exec(" +:+ dquote +:+ cmd +:+ dquote +:+ ")")) s)).
  { unfold exec_cmd. erewrite py_bind_returns by apply eval_javascript_spec.
    reflexivity. }
  split; [exact H|].
  intros c Hc. rewrite (calls_issued_by_record_call _ _ _ _ H) in Hc.
  injection Hc as <-.
  assert (Hs : forall t, script_of (issued WEBENGINE t) = t)
    by (intros t; unfold issued; destruct WEBENGINE; reflexivity).
  rewrite Hs, !string_length_app. cbn [String.length dquote]. lia.
Qed.

Lemma script_of_issued t : script_of (issued WEBENGINE t) = t.
Proof. unfold issued. destruct WEBENGINE; reflexivity. Qed.

(** The working directory can be read back from the command: two paths give
    the same [setcwd] call only when they are the same path. *)
Theorem set_dir_injective (path1 path2 : string) (s1 s2 : State) :
  calls_issued_by (set_dir path1) s1 = calls_issued_by (set_dir path2) s2 ->
  path1 = path2.
Proof.
  rewrite (calls_issued_by_record_call _ _ _ _ (set_dir_spec path1 s1)).
  rewrite (calls_issued_by_record_call _ _ _ _ (set_dir_spec path2 s2)).
  intros [= H]. apply (f_equal script_of) in H.
  rewrite !script_of_issued in H.
  do 3 apply string_app_cancel_l in H.
  rewrite <- !string_app_assoc in H.
  apply string_app_cancel_r in H.
  apply string_app_cancel_r in H. exact H.
Qed.

(** Wheel events with different vertical deltas give different [scrollTerm]
    calls. *)
Theorem wheelEvent_injective (event1 event2 : QWheelEvent) (s1 s2 : State) :
  calls_issued_by (TermView_wheelEvent event1) s1
  = calls_issued_by (TermView_wheelEvent event2) s2 ->
  snd (angleDelta event1) = snd (angleDelta event2).
Proof.
  assert (H : forall event s,
    TermView_wheelEvent event s
    = (Returns tt,
       record_call
         (issued WEBENGINE
            (PREFIX +:+ "scrollTerm(" +:+ pretty (snd (angleDelta event)) +:+ ")")) s)).
  { intros event s. unfold TermView_wheelEvent.
    erewrite py_bind_returns by apply TermView_eval_javascript_spec.
    reflexivity. }
  rewrite (calls_issued_by_record_call _ _ _ _ (H event1 s1)).
  rewrite (calls_issued_by_record_call _ _ _ _ (H event2 s2)).
  intros [= E]. apply (f_equal script_of) in E.
  rewrite !script_of_issued in E.
  do 2 apply string_app_cancel_l in E.
  apply string_app_cancel_r in E.
  apply (inj pretty) in E. exact E.
Qed.

(** Arguments are not escaped: an option value that contains the quoted
    separator gives the same [setOption] call as the name and value split at
    another place, so the call does not determine its arguments. *)
Theorem set_option_not_injective (a b c : string) (s : State) :
  let sep := dquote +:+ ", " +:+ dquote in
  set_option a (b +:+ sep +:+ c) s = set_option (a +:+ sep +:+ b) c s
  /\ (b <> "" -> (a, b +:+ sep +:+ c) <> (a +:+ sep +:+ b, c)).
Proof.
  intros sep. split.
  - rewrite !set_option_spec. unfold setOption_text, sep.
    do 3 f_equal. rewrite !string_app_assoc. reflexivity.
  - intros Hb [= Ha _]. apply Hb.
    assert (Hlen : String.length a = String.length (a +:+ sep +:+ b))
      by (rewrite <- Ha; reflexivity).
    rewrite !string_length_app in Hlen. unfold sep, dquote in Hlen.
    cbn [String.length] in Hlen. rewrite !string_length_app in Hlen.
    cbn [String.length] in Hlen. lia.
Qed.

(** *** More on settings *)

Lemma foldl_insert_lookup (l : list string) (d : gmap string PyVal) (k : string) :
  foldl (fun dict_options option => <[option := get_option option]> dict_options) d l !! k
  = if decide (k ∈ l) then Some (get_option k) else d !! k.
Proof.
  revert d. induction l as [|a l IH]; intros d.
  - cbn [foldl]. destruct (decide (k ∈ [])) as [H|H]; [|reflexivity].
    apply elem_of_nil in H. contradiction.
  - cbn [foldl]. rewrite IH.
    destruct (decide (k ∈ l)) as [Hin|Hnin].
    + rewrite decide_True by (apply elem_of_cons; auto). reflexivity.
    + destruct (decide (a = k)) as [->|Hne].
      * rewrite lookup_insert_eq.
        rewrite decide_True by (apply elem_of_cons; auto). reflexivity.
      * rewrite lookup_insert_ne by exact Hne.
        rewrite decide_False; [reflexivity|].
        intros [->|H]%elem_of_cons; [congruence|contradiction].
Qed.

Lemma options_snapshot_lookup_aux (key : string) :
  options_snapshot !! key
  = if decide (key ∈ CONF_options) then Some (get_option key) else None.
Proof.
  unfold options_snapshot. rewrite foldl_insert_lookup.
  destruct (decide (key ∈ CONF_options)); [reflexivity|apply lookup_empty].
Qed.

(** The dictionary built by [setup_term] has exactly the names listed by the
    configuration, each with the value [get_option] gives for it, also when
    a name is listed more than once. *)
Theorem options_snapshot_lookup (key : string) :
  options_snapshot !! key
  = if decide (key ∈ CONF_options) then Some (get_option key) else None.
Proof. apply options_snapshot_lookup_aux. Qed.

(** With [sound] alone among the two keys, and a value for it that is
    [None], a boolean, an integer or a string, [apply_settings] makes one
    call, and among these values the bell style is [none] exactly for
    [None], [False], [0] and the empty string. *)
Theorem bell_style_by_truthiness
    (options : gmap string PyVal) (s : State) (sound : PyVal) :
  options !! "sound" = Some sound ->
  options !! "cursor_type" = None ->
  let quiet := bool_decide (sound ∈ [PyNone; PyBool false; PyInt 0; PyStr ""]) in
  apply_settings options s
  = (Returns tt,
     record_call
       (issued WEBENGINE (setOption_text "bellStyle" (if quiet then "none" else "sound")))
       s).
Proof.
  intros Hs Hc quiet. rewrite apply_settings_unfold, Hs, Hc. cbn zeta.
  assert (Hq : py_truthy sound = negb quiet).
  { subst quiet. destruct sound as [|[]|z|str]; cbn [py_truthy].
    - rewrite bool_decide_eq_true_2 by (rewrite !elem_of_cons; auto). reflexivity.
    - rewrite bool_decide_eq_false_2; [reflexivity|].
      rewrite !elem_of_cons, elem_of_nil. intros [H|[H|[H|[H|[]]]]]; discriminate.
    - rewrite bool_decide_eq_true_2 by (rewrite !elem_of_cons; auto). reflexivity.
    - destruct (Z.eqb_spec z 0) as [->|Hz]; cbn [negb].
      + rewrite bool_decide_eq_true_2 by (rewrite !elem_of_cons; auto). reflexivity.
      + rewrite bool_decide_eq_false_2; [reflexivity|].
        rewrite !elem_of_cons, elem_of_nil.
        intros [H|[H|[H|[H|[]]]]]; try discriminate. injection H as ->. lia.
    - destruct (String.eqb_spec str "") as [->|Hstr]; cbn [negb].
      + rewrite bool_decide_eq_true_2 by (rewrite !elem_of_cons; auto 6). reflexivity.
      + rewrite bool_decide_eq_false_2; [reflexivity|].
        rewrite !elem_of_cons, elem_of_nil.
        intros [H|[H|[H|[H|[]]]]]; try discriminate. injection H as ->. congruence. }
  rewrite Hq. destruct quiet; reflexivity.
Qed.

Lemma cursor_table_defined (v : PyVal) :
  is_Some (literal_lookup cursor_choices v)
  <-> v ∈ [PyInt 0; PyInt 1; PyInt 2; PyBool false; PyBool true].
Proof.
  rewrite !elem_of_cons, elem_of_nil. split.
  - intros [name H]. destruct v as [|[]|z|str]; try discriminate H; auto 8.
    unfold cursor_choices, literal_lookup, py_key_eqb in H.
    destruct (Z.eqb_spec 0 z) as [<-|]; [auto|].
    destruct (Z.eqb_spec 1 z) as [<-|]; [auto|].
    destruct (Z.eqb_spec 2 z) as [<-|]; [auto 6|discriminate H].
  - intros [->|[->|[->|[->|[->|[]]]]]]; eexists; reflexivity.
Qed.

(** The cursor table is read with Python's key equality, so [False] and
    [True] select [block] and [underline] as [0] and [1] do, and 2 selects
    [bar]; no other value, a string such as ["1"] included, is a key. *)
Theorem cursor_table_keys (v : PyVal) (name : string) :
  literal_lookup cursor_choices v = Some name
  <-> ((v = PyInt 0 \/ v = PyBool false) /\ name = "block")
      \/ ((v = PyInt 1 \/ v = PyBool true) /\ name = "underline")
      \/ (v = PyInt 2 /\ name = "bar").
Proof.
  split.
  - intros H. destruct v as [|[]|z|str]; try discriminate H.
    + injection H as <-. auto 6.
    + injection H as <-. auto 6.
    + unfold cursor_choices, literal_lookup, py_key_eqb in H.
      destruct (Z.eqb_spec 0 z) as [<-|]; [injection H as <-; auto 6|].
      destruct (Z.eqb_spec 1 z) as [<-|]; [injection H as <-; auto 6|].
      destruct (Z.eqb_spec 2 z) as [<-|]; [injection H as <-; auto 6|discriminate H].
  - intros [[[-> | ->] ->]|[[[-> | ->] ->]|[-> ->]]]; reflexivity.
Qed.

(** On options whose values are [None], booleans, integers or strings,
    [apply_settings] raises exactly when [cursor_type] is present with a
    value other than 0, 1, 2, [False] and [True]; the exception is then the
    [KeyError] of that value. *)
Theorem apply_settings_raises_iff (options : gmap string PyVal) (s : State) (e : PyExn) :
  fst (apply_settings options s) = Raises e
  <-> exists v,
        options !! "cursor_type" = Some v
        /\ (v ∉ [PyInt 0; PyInt 1; PyInt 2; PyBool false; PyBool true])
        /\ e = KeyError v.
Proof.
  rewrite apply_settings_unfold. cbn zeta. split.
  - destruct (options !! "cursor_type") as [v|]; [|discriminate].
    destruct (literal_lookup cursor_choices v) as [name|] eqn:Hv; [discriminate|].
    cbn [fst]. intros [= <-]. exists v. split; [reflexivity|]. split; [|reflexivity].
    intros Hin. apply cursor_table_defined in Hin. rewrite Hv in Hin.
    destruct Hin as [? ?]. discriminate.
  - intros (v & Hc & Hnin & ->). rewrite Hc.
    destruct (literal_lookup cursor_choices v) as [name|] eqn:Hv; [|reflexivity].
    exfalso. apply Hnin, cursor_table_defined. eauto.
Qed.

(** [apply_settings] touches nothing but the document's trace. *)
Lemma apply_settings_frame (options : gmap string PyVal) s :
  let s' := snd (apply_settings options s) in
  font s' = font s /\ initial_path s' = initial_path s
  /\ sig_ready s' = sig_ready s /\ sig_closed s' = sig_closed s
  /\ emitted s' = emitted s /\ timers s' = timers s /\ clock s' = clock s
  /\ stdout s' = stdout s /\ page_actions s' = page_actions s.
Proof.
  rewrite apply_settings_unfold. cbn zeta.
  destruct (options !! "sound") as [sound|];
    destruct (options !! "cursor_type") as [cursor_id|];
    try destruct (literal_lookup cursor_choices cursor_id) as [name|];
    repeat split.
Qed.

(** What [apply_settings] returns and which calls it makes do not depend on
    the state it starts from. *)
Lemma apply_settings_state_independent (options : gmap string PyVal) s s' :
  fst (apply_settings options s) = fst (apply_settings options s')
  /\ calls_issued_by (apply_settings options) s
     = calls_issued_by (apply_settings options) s'.
Proof.
  unfold calls_issued_by. rewrite !apply_settings_unfold. cbn zeta.
  destruct (options !! "sound") as [sound|];
    destruct (options !! "cursor_type") as [cursor_id|];
    try destruct (literal_lookup cursor_choices cursor_id) as [name|];
    cbn [fst snd]; (split; [reflexivity|]);
    rewrite ?doc_calls_record_call, <- ?app_assoc, ?drop_app_length;
    rewrite ?drop_all; reflexivity.
Qed.

(** *** More on the lifecycle notifications *)

Lemma ChannelHandler_ready_unfold s :
  sig_ready s = [emit_terminal_ready; slot_setup_term] ->
  ChannelHandler_ready s
  = apply_settings options_snapshot
      (record_call
         (issued WEBENGINE
            (PREFIX +:+ "setcwd(" +:+ dquote +:+ initial_path s +:+ dquote +:+ ")"))
         (record_call
            (issued WEBENGINE
               (PREFIX +:+ "fitFont(" +:+ dquote +:+ py_str (font s) +:+ dquote +:+ ")"))
            (with_font (font s)
               (with_stdout (stdout s ++ [String (Ascii.ascii_of_nat 0) EmptyString])
                  (with_emitted (emitted s ++ [terminal_ready]) s))))).
Proof.
  intros Hconn.
  unfold ChannelHandler_ready, get_state. unfold py_bind at 1.
  rewrite Hconn. cbn [run_slots run_slot].
  unfold emit, modify. unfold py_bind at 1.
  rewrite py_bind_ret_unit, setup_term_spec. reflexivity.
Qed.

Lemma ChannelHandler_ready_calls s :
  sig_ready s = [emit_terminal_ready; slot_setup_term] ->
  calls_issued_by ChannelHandler_ready s
  = (issued WEBENGINE
       (PREFIX +:+ "fitFont(" +:+ dquote +:+ py_str (font s) +:+ dquote +:+ ")")
     :: issued WEBENGINE
          (PREFIX +:+ "setcwd(" +:+ dquote +:+ initial_path s +:+ dquote +:+ ")")
     :: calls_issued_by (apply_settings options_snapshot) s).
Proof.
  intros Hconn. unfold calls_issued_by at 1.
  rewrite (ChannelHandler_ready_unfold s Hconn), apply_settings_appends.
  rewrite !doc_calls_record_call.
  cbn [doc_calls with_font with_stdout with_emitted].
  rewrite <- !app_assoc, drop_app_length. cbn [app]. do 2 f_equal.
  apply apply_settings_state_independent.
Qed.

(** When the configuration lists neither [sound] nor [cursor_type], the
    ready notification returns normally after exactly two calls, [fitFont]
    then [setcwd]. *)
Theorem ready_without_recognized_options (s : State) :
  sig_ready s = [emit_terminal_ready; slot_setup_term] ->
  "sound" ∉ CONF_options ->
  "cursor_type" ∉ CONF_options ->
  fst (ChannelHandler_ready s) = Returns tt
  /\ calls_issued_by ChannelHandler_ready s
     = [issued WEBENGINE
          (PREFIX +:+ "fitFont(" +:+ dquote +:+ py_str (font s) +:+ dquote +:+ ")");
        issued WEBENGINE
          (PREFIX +:+ "setcwd(" +:+ dquote +:+ initial_path s +:+ dquote +:+ ")")].
Proof.
  intros Hconn Hs Hc.
  assert (Hsn : options_snapshot !! "sound" = None)
    by (rewrite options_snapshot_lookup_aux; apply decide_False; exact Hs).
  assert (Hcn : options_snapshot !! "cursor_type" = None)
    by (rewrite options_snapshot_lookup_aux; apply decide_False; exact Hc).
  split.
  - rewrite (ChannelHandler_ready_unfold s Hconn).
    rewrite (apply_settings_unrecognized _ _ Hsn Hcn). reflexivity.
  - rewrite (ChannelHandler_ready_calls s Hconn). do 2 f_equal.
    unfold calls_issued_by.
    rewrite (apply_settings_unrecognized _ _ Hsn Hcn). cbn [snd].
    apply drop_all.
Qed.

(** Nothing latches the ready notification: a second one emits
    [terminal_ready] again and makes the same calls with the same outcome
    as the first. *)
Theorem ready_is_repeatable (s : State) :
  sig_ready s = [emit_terminal_ready; slot_setup_term] ->
  let s1 := snd (ChannelHandler_ready s) in
  let s2 := snd (ChannelHandler_ready s1) in
  calls_issued_by ChannelHandler_ready s1 = calls_issued_by ChannelHandler_ready s
  /\ fst (ChannelHandler_ready s1) = fst (ChannelHandler_ready s)
  /\ emitted s2 = (emitted s ++ [terminal_ready; terminal_ready])%list.
Proof.
  intros Hconn s1 s2.
  pose proof (ChannelHandler_ready_unfold s Hconn) as Hs1.
  set (mid := record_call _ _) in Hs1.
  pose proof (apply_settings_frame options_snapshot mid) as F1.
  cbn zeta in F1. rewrite <- Hs1 in F1. fold s1 in F1.
  destruct F1 as (Hf & Hp & Hr & _ & He & _).
  assert (Hconn1 : sig_ready s1 = [emit_terminal_ready; slot_setup_term])
    by (rewrite Hr; exact Hconn).
  pose proof (ChannelHandler_ready_unfold s1 Hconn1) as Hs2.
  set (mid1 := record_call _ _) in Hs2.
  split; [|split].
  - rewrite (ChannelHandler_ready_calls s Hconn), (ChannelHandler_ready_calls s1 Hconn1).
    rewrite Hf, Hp. do 2 f_equal. apply apply_settings_state_independent.
  - rewrite Hs2, Hs1. apply apply_settings_state_independent.
  - pose proof (apply_settings_frame options_snapshot mid1) as F2.
    cbn zeta in F2. rewrite <- Hs2 in F2. fold s2 in F2.
    destruct F2 as (_ & _ & _ & _ & He2 & _).
    rewrite He2. subst mid1. cbn [emitted record_call with_doc_calls with_font with_stdout with_emitted].
    rewrite He. subst mid. cbn [emitted record_call with_doc_calls with_font with_stdout with_emitted].
    rewrite <- app_assoc. reflexivity.
Qed.

(** [set_font] stores the font and [set_dir] stores nothing: after
    [set_font] and then [set_dir], the ready notification sends the new font
    and the path given to the constructor, not the path given to [set_dir]. *)
Theorem ready_after_set_font_and_set_dir (new_font : PyVal) (path : string) (s : State) :
  sig_ready s = [emit_terminal_ready; slot_setup_term] ->
  let s' := snd (set_dir path (snd (set_font new_font s))) in
  initial_path s' = initial_path s
  /\ font s' = new_font
  /\ exists settings_calls,
       calls_issued_by ChannelHandler_ready s'
       = (issued WEBENGINE
            (PREFIX +:+ "fitFont(" +:+ dquote +:+ py_str new_font +:+ dquote +:+ ")")
          :: issued WEBENGINE
               (PREFIX +:+ "setcwd(" +:+ dquote +:+ initial_path s +:+ dquote +:+ ")")
          :: settings_calls).
Proof.
  intros Hconn s'. subst s'.
  rewrite set_font_spec. cbn [snd]. rewrite set_dir_spec. cbn [snd].
  split; [reflexivity|]. split; [reflexivity|].
  eexists. rewrite ChannelHandler_ready_calls by exact Hconn. reflexivity.
Qed.

Lemma setup_term_calls s :
  calls_issued_by setup_term s
  = (issued WEBENGINE
       (PREFIX +:+ "fitFont(" +:+ dquote +:+ py_str (font s) +:+ dquote +:+ ")")
     :: issued WEBENGINE
          (PREFIX +:+ "setcwd(" +:+ dquote +:+ initial_path s +:+ dquote +:+ ")")
     :: calls_issued_by (apply_settings options_snapshot) s).
Proof.
  unfold calls_issued_by at 1.
  rewrite setup_term_spec, apply_settings_appends.
  rewrite !doc_calls_record_call.
  cbn [doc_calls with_font with_stdout].
  rewrite <- !app_assoc, drop_app_length. cbn [app]. do 2 f_equal.
  apply apply_settings_state_independent.
Qed.

(** When the snapshot holds for [cursor_type] a value, among [None], the
    booleans, the integers and the strings, that the cursor table does not
    have, a call of [setup_term] does not return normally: it raises at the
    table lookup, after [fitFont] and [setcwd] have been sent, and it sends
    no [cursorStyle] call. *)
Theorem setup_term_with_bad_cursor_type (s : State) (v : PyVal) :
  options_snapshot !! "cursor_type" = Some v ->
  literal_lookup cursor_choices v = None ->
  (exists e, fst (setup_term s) = Raises e)
  /\ take 2 (calls_issued_by setup_term s)
     = [issued WEBENGINE
          (PREFIX +:+ "fitFont(" +:+ dquote +:+ py_str (font s) +:+ dquote +:+ ")");
        issued WEBENGINE
          (PREFIX +:+ "setcwd(" +:+ dquote +:+ initial_path s +:+ dquote +:+ ")")]
  /\ forall c, c ∈ calls_issued_by setup_term s ->
       is_setOption_of "cursorStyle" c = false.
Proof.
  intros Hc Hv.
  split; [|split].
  - exists (KeyError v).
    rewrite setup_term_spec, apply_settings_unfold, Hc. cbn zeta.
    rewrite Hv. reflexivity.
  - rewrite setup_term_calls. reflexivity.
  - rewrite setup_term_calls.
    assert (Hset : calls_issued_by (apply_settings options_snapshot) s
                   = match options_snapshot !! "sound" with
                     | Some sound =>
                         [issued WEBENGINE
                            (setOption_text "bellStyle"
                               (if py_truthy sound then "sound" else "none"))]
                     | None => []
                     end).
    { unfold calls_issued_by. rewrite apply_settings_unfold, Hc. cbn zeta.
      rewrite Hv. cbn [snd].
      destruct (options_snapshot !! "sound") as [sound|].
      - rewrite doc_calls_record_call. apply drop_app_length.
      - apply drop_all. }
    rewrite Hset. intros c Hin.
    assert (Hp : forall t, is_setOption_of "cursorStyle" (issued WEBENGINE t)
                           = String.prefix
                               (PREFIX +:+ "setOption(" +:+ dquote +:+ "cursorStyle" +:+ dquote) t)
      by (intros t; unfold is_setOption_of; rewrite script_of_issued; reflexivity).
    apply elem_of_cons in Hin as [->|Hin]; [rewrite Hp; reflexivity|].
    apply elem_of_cons in Hin as [->|Hin]; [rewrite Hp; reflexivity|].
    destruct (options_snapshot !! "sound") as [sound|].
    + apply elem_of_cons in Hin as [->|Hin]; [|apply elem_of_nil in Hin; contradiction].
      rewrite Hp. destruct (py_truthy sound); vm_compute; reflexivity.
    + apply elem_of_nil in Hin. contradiction.
Qed.

(** With the connection made by the constructor, the close notification
    emits [terminal_closed] and does nothing else; nothing latches it and
    nothing blocks later commands: a second notification emits the signal
    again, and a command sent afterwards still reaches the document. *)
Theorem close_emits_and_blocks_nothing (cmd : string) (s : State) :
  sig_closed s = [emit_terminal_closed] ->
  let s1 := snd (ChannelHandler_close s) in
  ChannelHandler_close s
  = (Returns tt, with_emitted (emitted s ++ [terminal_closed]) s)
  /\ emitted (snd (ChannelHandler_close s1))
     = (emitted s ++ [terminal_closed; terminal_closed])%list
  /\ calls_issued_by (exec_cmd cmd) s1
     = [issued WEBENGINE (PREFIX +:+ "exec(" +:+ dquote +:+ cmd +:+ dquote +:+ ")")].
Proof.
  intros Hconn s1.
  assert (H : forall s0, sig_closed s0 = [emit_terminal_closed] ->
            ChannelHandler_close s0
            = (Returns tt, with_emitted (emitted s0 ++ [terminal_closed]) s0)).
  { intros s0 H0. unfold ChannelHandler_close, get_state. unfold py_bind at 1.
    rewrite H0. reflexivity. }
  split; [apply H; exact Hconn|]. subst s1. rewrite (H s Hconn). cbn [snd].
  split.
  - rewrite H by exact Hconn. cbn [snd emitted with_emitted].
    rewrite <- app_assoc. reflexivity.
  - eapply calls_issued_by_record_call.
    unfold exec_cmd. erewrite py_bind_returns by apply eval_javascript_spec.
    reflexivity.
Qed.

(** *** Construction *)

(** The constructor loads the one URL [http://127.0.0.1:<port>?path=<path>]
    with the path copied as it is, connects the signals, stores the font and
    the path, and sends the document nothing; with WebEngine it registers
    the handler and starts no timer, without it it registers nothing and
    starts the one polling timer. *)
Theorem TerminalWidget_init_effects (port : Z) (path : string) (new_font : PyVal) (t0 : Z) :
  TerminalWidget_init port path new_font (blank_state t0)
  = (Returns tt,
     mkState new_font path
       [emit_terminal_ready; slot_setup_term] [emit_terminal_closed]
       (if WEBENGINE then ["handler"] else [])
       ["http://127.0.0.1:" +:+ pretty port +:+ "?path=" +:+ path]
       [] [] [] t0
       (if WEBENGINE then [] else [(t0 + 250, alive_loopback_cb)])
       []).
Proof.
  unfold TerminalWidget_init, TermView_init. destruct WEBENGINE; reflexivity.
Qed.

End Widget.

(** ** The model at concrete inputs *)

Lemma set_dir_tmp_x :
  map script_of
      (doc_calls (snd (set_dir false (alive_for 0) "/tmp/x" (blank_state 0))))
  = ["spyder_terminal.default.setcwd(" +:+ dquote +:+ "/tmp/x" +:+ dquote +:+ ")"].
Proof. reflexivity. Qed.

Lemma wheelEvent_minus_120 :
  map script_of
      (doc_calls (snd (TermView_wheelEvent true (alive_for 0)
                         (mkQWheelEvent (0, -120)) (blank_state 0))))
  = ["spyder_terminal.default.scrollTerm(-120)"].
Proof. vm_compute. reflexivity. Qed.

Lemma apply_settings_sound_underline_witness :
  sample_options !! "sound" = Some (PyBool true)
  /\ sample_options !! "cursor_type" = Some (PyInt 1)
  /\ calls_issued_by (apply_settings false (alive_for 0) sample_options) (blank_state 0)
     = [evaluateJavaScript (setOption_text "bellStyle" "sound");
        evaluateJavaScript (setOption_text "cursorStyle" "underline")]
  /\ apply_settings false (alive_for 0) (<["font" := PyStr "Mono"]> sample_options)
       (blank_state 0)
     = apply_settings false (alive_for 0) sample_options (blank_state 0).
Proof.
  split; [reflexivity|]. split; [reflexivity|].
  pose proof (apply_settings_sound_underline false (alive_for 0) sample_options
                (blank_state 0) "font" (PyStr "Mono")) as H.
  destruct H as (_ & Hcalls & Hins & _);
    [reflexivity | reflexivity | discriminate | discriminate |].
  split; [exact Hcalls | exact Hins].
Defined.

Lemma apply_settings_cursor_in_range_witness :
  sample_options !! "cursor_type" = Some (PyInt 1)
  /\ fst (apply_settings false (alive_for 0) sample_options (blank_state 0)) = Returns tt.
Proof.
  split; [reflexivity|].
  apply (apply_settings_cursor_in_range false (alive_for 0) sample_options
           (blank_state 0) 1); [reflexivity | lia].
Defined.

Lemma apply_settings_bell_before_cursor_witness :
  sample_options !! "sound" = Some (PyBool true)
  /\ sample_options !! "cursor_type" = Some (PyInt 1)
  /\ fst (apply_settings true (alive_for 0) sample_options (blank_state 0)) = Returns tt
  /\ issued_before "bellStyle" "cursorStyle"
       (calls_issued_by (apply_settings true (alive_for 0) sample_options) (blank_state 0)).
Proof.
  split; [reflexivity|]. split; [reflexivity|]. split; [reflexivity|].
  pose proof (apply_settings_bell_before_cursor true (alive_for 0) sample_options
                (blank_state 0) (PyBool true) (PyInt 1)) as H.
  destruct H as (_ & _ & Hret); [reflexivity | reflexivity |].
  exact (proj2 (Hret eq_refl)).
Defined.

Lemma ready_font_then_cwd_then_settings_witness :
  let s := snd (TerminalWidget_init true 8070 "~" (PyStr "Mono") (blank_state 0)) in
  sig_ready s = [emit_terminal_ready; slot_setup_term]
  /\ map script_of
       (calls_issued_by
          (ChannelHandler_ready true (alive_for 0)
             ["sound"; "cursor_type"; "buffer_limit"] sample_get_option) s)
     = [PREFIX +:+ "fitFont(" +:+ dquote +:+ "Mono" +:+ dquote +:+ ")";
        PREFIX +:+ "setcwd(" +:+ dquote +:+ "~" +:+ dquote +:+ ")";
        setOption_text "bellStyle" "sound";
        setOption_text "cursorStyle" "underline"].
Proof.
  intros s. split; [reflexivity|].
  pose proof (ready_font_then_cwd_then_settings true (alive_for 0)
                ["sound"; "cursor_type"; "buffer_limit"] sample_get_option s) as H.
  destruct H as [_ H]; [reflexivity|].
  rewrite H. vm_compute. reflexivity.
Defined.

Lemma shortcut_override_chords_witness :
  TermView_event sample_portable_text sample_WebView_event copy_chord_event (blank_state 0)
  = (Returns (true, QEvent_accept copy_chord_event),
     with_page_actions [Copy] (blank_state 0))
  /\ TermView_event sample_portable_text sample_WebView_event paste_chord_event (blank_state 0)
     = (Returns (true, QEvent_accept paste_chord_event),
        with_page_actions [Paste] (blank_state 0))
  /\ TermView_event sample_portable_text sample_WebView_event toggle_chord_event (blank_state 0)
     = (Returns (false, QEvent_ignore toggle_chord_event), blank_state 0)
  /\ TermView_event sample_portable_text sample_WebView_event plain_a_event (blank_state 0)
     = (Returns (true, QEvent_accept plain_a_event), blank_state 0).
Proof.
  split; [|split; [|split]].
  - apply (shortcut_override_chords sample_portable_text sample_WebView_event
             copy_chord_event (blank_state 0) eq_refl).
    vm_compute. reflexivity.
  - apply (shortcut_override_chords sample_portable_text sample_WebView_event
             paste_chord_event (blank_state 0) eq_refl).
    vm_compute. reflexivity.
  - apply (shortcut_override_chords sample_portable_text sample_WebView_event
             toggle_chord_event (blank_state 0) eq_refl).
    vm_compute. reflexivity.
  - apply (shortcut_override_chords sample_portable_text sample_WebView_event
             plain_a_event (blank_state 0) eq_refl);
      vm_compute; discriminate.
Defined.

(** ** Where the code departs from the value-returning contract *)

(** C1, the code at the failing input: on the backend without WebEngine,
    [eval_javascript] returns [None] for every script and every document;
    with a document whose [isAlive()] evaluates to [True], the document
    call yields [True] and [is_alive] still returns [None]. *)
Theorem is_alive_discards_document_value :
  (forall (respond : list DocCall -> string -> PyVal) (script : string) (s : State),
     fst (eval_javascript false respond script s) = Returns PyNone)
  /\ (let s := snd (TerminalWidget_init false 8070 "~" PyNone (blank_state 0)) in
      fst (Document_evaluateJavaScript (alive_for 1) isAlive_script s)
      = Returns (PyBool true)
      /\ fst (is_alive false (alive_for 1) s) = Returns PyNone).
Proof.
  split.
  - intros respond script s. rewrite eval_javascript_spec. reflexivity.
  - split; reflexivity.
Qed.

(** C2, the code on the polling backend: the constructor sets one timer due
    250 ms later; when it fires the document is polled once, and whatever
    number [N] of polls the document would answer [True] to, the poll reads
    [None], [terminal_closed] is emitted once, no timer is left, and the
    number of polls is 1, which is [N + 1] only for [N = 0]. *)
Theorem alive_loop_closes_on_first_poll
    (N : nat) (port : Z) (path : string) (new_font : PyVal) (t0 : Z) (fuel : nat) :
  let s0 := snd (TerminalWidget_init false port path new_font (blank_state t0)) in
  let s1 := snd (run_timers false (alive_for N) (S fuel) s0) in
  timers s0 = [(t0 + 250, alive_loopback_cb)]
  /\ doc_calls s1 = [evaluateJavaScript isAlive_script]
  /\ polls (doc_calls s1) = 1%nat
  /\ emitted s1 = [terminal_closed]
  /\ timers s1 = []
  /\ clock s1 = t0 + 250
  /\ (polls (doc_calls s1) = S N <-> N = 0%nat).
Proof.
  intros s0 s1.
  assert (Ht : timers s0 = [(t0 + 250, alive_loopback_cb)]) by reflexivity.
  assert (H1 : s1 = with_emitted (emitted s0 ++ [terminal_closed])
                      (record_call (issued false isAlive_script)
                         (with_clock (Z.max (clock s0) (t0 + 250))
                            (with_timers [] s0)))).
  { subst s1. rewrite (run_timers_single_poll false (alive_for N) fuel s0 _ Ht).
    reflexivity. }
  split; [exact Ht|].
  rewrite H1. cbn.
  repeat split; try lia.
  all: rewrite String.eqb_refl; cbn [length]; lia.
Qed.

(** With a document that answers [True] once and then [False], the claim
    asks for two polls; the code makes one. *)
Lemma alive_loop_one_poll_for_N1 :
  let s0 := snd (TerminalWidget_init false 8070 "~" PyNone (blank_state 0)) in
  let s1 := snd (run_timers false (alive_for 1) 10 s0) in
  polls (doc_calls s1) = 1%nat
  /\ emitted s1 = [terminal_closed]
  /\ clock s1 = 250
  /\ alive_for 1 [] isAlive_script = PyBool true.
Proof. vm_compute. auto. Qed.

(** ** More of the model at concrete inputs *)

(** With WebEngine the constructor starts no timer, so the polling loop
    never runs: letting the timers run after construction polls nothing,
    emits nothing and leaves the widget as constructed. *)
Theorem webengine_widget_never_polls
    (respond : list DocCall -> string -> PyVal)
    (port : Z) (path : string) (new_font : PyVal) (t0 : Z) (fuel : nat) :
  let s := snd (TerminalWidget_init true port path new_font (blank_state t0)) in
  run_timers true respond fuel s = (Returns tt, s)
  /\ polls (doc_calls s) = 0%nat
  /\ emitted s = [].
Proof.
  intros s. split; [|split; reflexivity].
  apply run_timers_idle. reflexivity.
Qed.

Lemma chord_key_is_bitwise_or_witness :
  chord_key copy_chord_event = 0x06000043.
Proof.
  rewrite (chord_key_is_bitwise_or copy_chord_event) by (cbn; lia).
  reflexivity.
Defined.

Lemma shortcut_override_frame_witness :
  exists (consumed : bool) (event' : QEvent) (actions : list WebAction),
    TermView_event sample_portable_text sample_WebView_event toggle_chord_event
      (blank_state 0)
    = (Returns (consumed, event'),
       if actions is [] then blank_state 0
       else with_page_actions (page_actions (blank_state 0) ++ actions) (blank_state 0))
    /\ ev_accepted event' = consumed.
Proof.
  destruct (shortcut_override_frame sample_portable_text sample_WebView_event
              toggle_chord_event (blank_state 0) eq_refl)
    as (consumed & event' & actions & H & Hacc & _).
  exists consumed, event', actions. split; [exact H | exact Hacc].
Defined.

Lemma exec_cmd_serializes_witness :
  String.length
    (script_of (evaluateJavaScript
                  (PREFIX +:+ "exec(" +:+ dquote +:+ "ls" +:+ dquote +:+ ")")))
  = (String.length PREFIX + 8 + String.length "ls")%nat.
Proof.
  apply (proj2 (exec_cmd_serializes false (alive_for 0) "ls" (blank_state 0))).
  reflexivity.
Defined.

Lemma set_dir_injective_witness :
  calls_issued_by (set_dir true (alive_for 0) "/tmp/x") (blank_state 0)
  = calls_issued_by (set_dir true (alive_for 0) "/tmp/x") (blank_state 250)
  /\ "/tmp/x" = "/tmp/x".
Proof.
  split; [reflexivity|].
  apply (set_dir_injective true (alive_for 0) "/tmp/x" "/tmp/x"
           (blank_state 0) (blank_state 250)).
  reflexivity.
Defined.

Lemma wheelEvent_injective_witness :
  snd (angleDelta (mkQWheelEvent (0, -120))) = snd (angleDelta (mkQWheelEvent (15, -120))).
Proof.
  apply (wheelEvent_injective false (alive_for 0)
           (mkQWheelEvent (0, -120)) (mkQWheelEvent (15, -120))
           (blank_state 0) (blank_state 0)).
  vm_compute. reflexivity.
Defined.

Lemma set_option_not_injective_witness :
  ("bellStyle", "x" +:+ (dquote +:+ ", " +:+ dquote) +:+ "none")
  <> ("bellStyle" +:+ (dquote +:+ ", " +:+ dquote) +:+ "x", "none").
Proof.
  apply (proj2 (set_option_not_injective false (alive_for 0)
                  "bellStyle" "x" "none" (blank_state 0))).
  discriminate.
Defined.

Lemma bell_style_by_truthiness_witness :
  apply_settings false (alive_for 0) (<["sound" := PyInt 0]> ∅) (blank_state 0)
  = (Returns tt,
     record_call (evaluateJavaScript (setOption_text "bellStyle" "none")) (blank_state 0)).
Proof.
  apply (bell_style_by_truthiness false (alive_for 0) (<["sound" := PyInt 0]> ∅)
           (blank_state 0) (PyInt 0)); reflexivity.
Defined.

Lemma ready_without_recognized_options_witness :
  let s := snd (TerminalWidget_init false 8070 "~" (PyStr "Mono") (blank_state 0)) in
  calls_issued_by
    (ChannelHandler_ready false (alive_for 0) ["buffer_limit"] sample_get_option) s
  = [evaluateJavaScript (PREFIX +:+ "fitFont(" +:+ dquote +:+ "Mono" +:+ dquote +:+ ")");
     evaluateJavaScript (PREFIX +:+ "setcwd(" +:+ dquote +:+ "~" +:+ dquote +:+ ")")].
Proof.
  intros s.
  apply (ready_without_recognized_options false (alive_for 0)
           ["buffer_limit"] sample_get_option s).
  - reflexivity.
  - intros [H|H]%elem_of_cons; [discriminate|]. apply elem_of_nil in H. exact H.
  - intros [H|H]%elem_of_cons; [discriminate|]. apply elem_of_nil in H. exact H.
Defined.

Lemma ready_is_repeatable_witness :
  let s := snd (TerminalWidget_init true 8070 "~" (PyStr "Mono") (blank_state 0)) in
  let s1 := snd (ChannelHandler_ready true (alive_for 0)
                   ["sound"; "cursor_type"] sample_get_option s) in
  calls_issued_by
    (ChannelHandler_ready true (alive_for 0) ["sound"; "cursor_type"] sample_get_option) s1
  = calls_issued_by
      (ChannelHandler_ready true (alive_for 0) ["sound"; "cursor_type"] sample_get_option) s.
Proof.
  intros s s1.
  apply (ready_is_repeatable true (alive_for 0) ["sound"; "cursor_type"]
           sample_get_option s).
  reflexivity.
Defined.

Lemma ready_after_set_font_and_set_dir_witness :
  let s := snd (TerminalWidget_init true 8070 "~" (PyStr "Mono") (blank_state 0)) in
  initial_path
    (snd (set_dir true (alive_for 0) "/tmp/x"
            (snd (set_font true (alive_for 0) (PyStr "Courier") s))))
  = "~".
Proof.
  intros s.
  apply (ready_after_set_font_and_set_dir true (alive_for 0) [] sample_get_option
           (PyStr "Courier") "/tmp/x" s).
  reflexivity.
Defined.

Lemma setup_term_with_bad_cursor_type_witness :
  let s := snd (TerminalWidget_init true 8070 "~" (PyStr "Mono") (blank_state 0)) in
  exists e,
    fst (setup_term true (alive_for 0) ["sound"; "cursor_type"]
           (fun option => default PyNone (out_of_range_options !! option)) s)
    = Raises e.
Proof.
  intros s.
  apply (setup_term_with_bad_cursor_type true (alive_for 0) ["sound"; "cursor_type"]
           (fun option => default PyNone (out_of_range_options !! option)) s (PyInt 7));
    reflexivity.
Defined.

Lemma close_emits_and_blocks_nothing_witness :
  let s := snd (TerminalWidget_init false 8070 "~" PyNone (blank_state 0)) in
  ChannelHandler_close false (alive_for 0) [] sample_get_option s
  = (Returns tt, with_emitted (emitted s ++ [terminal_closed]) s).
Proof.
  intros s.
  apply (close_emits_and_blocks_nothing false (alive_for 0) [] sample_get_option "ls" s).
  reflexivity.
Defined.

(** What [apply_settings] sends and whether it raises depend on the options
    alone: the texts of its calls and its outcome are the same on both
    backends, from any state, whatever the document answers. *)
Theorem apply_settings_backend_independent
    (webengine1 webengine2 : bool)
    (respond1 respond2 : list DocCall -> string -> PyVal)
    (options : gmap string PyVal) (s1 s2 : State) :
  fst (apply_settings webengine1 respond1 options s1)
  = fst (apply_settings webengine2 respond2 options s2)
  /\ map script_of (calls_issued_by (apply_settings webengine1 respond1 options) s1)
     = map script_of (calls_issued_by (apply_settings webengine2 respond2 options) s2).
Proof.
  unfold calls_issued_by. rewrite !apply_settings_unfold. cbn zeta.
  destruct (options !! "sound") as [sound|];
    destruct (options !! "cursor_type") as [cursor_id|];
    try destruct (literal_lookup cursor_choices cursor_id) as [name|];
    cbn [fst snd]; (split; [reflexivity|]);
    rewrite ?doc_calls_record_call, <- ?app_assoc, ?drop_app_length, ?drop_all;
    cbn [map app]; rewrite ?script_of_issued; reflexivity.
Qed.
